(** * ThinkFirst AI: the conversation-context classifier and the prompt tiers

    A shallow embedding of [analyzeContext] and of the system-prompt
    construction of [chat] in
    [functions/src/gemini/geminiService.ts], with the properties of the
    design specification stated over it.

    Modelling conventions.
    - A JavaScript string is a [string]: a sequence of 8-bit characters.
      [toLowerCase] maps [A]-[Z] to [a]-[z] and [trim] strips the ASCII
      white space (tab, line feed, vertical tab, form feed, carriage return,
      space); the model follows the program on ASCII text.
    - [attemptCount] is a JavaScript number; it is modelled by [Z], so the
      counts the program can hold are the integers.
    - [currentTopic] is declared [string | null], yet an array read out of
      range yields [undefined]; the three cases are kept apart in [Topic].
    - An absent [previousContext] is [None]; the optional chaining
      [previousContext?.f] is then falsy. *)

From Stdlib Require Import String Ascii List ZArith NArith Bool Lia.
From Stdlib Require Import DecimalString.
Import ListNotations.

Open Scope list_scope.
Open Scope string_scope.

(** ** JavaScript string primitives *)

Module JsString.

Definition isUpper (c : ascii) : bool :=
  let n := N_of_ascii c in (65 <=? n)%N && (n <=? 90)%N.

Definition lowerChar (c : ascii) : ascii :=
  if isUpper c then ascii_of_N (N_of_ascii c + 32) else c.

(** [s.toLowerCase()] *)
Fixpoint toLowerCase (s : string) : string :=
  match s with
  | EmptyString => EmptyString
  | String c s' => String (lowerChar c) (toLowerCase s')
  end.

(** White space in the sense of [trim] and of the regular expression
    class [\s], on the ASCII range. *)
Definition isWhiteSpace (c : ascii) : bool :=
  let n := N_of_ascii c in ((9 <=? n)%N && (n <=? 13)%N) || (n =? 32)%N.

Fixpoint trimStart (s : string) : string :=
  match s with
  | EmptyString => EmptyString
  | String c s' => if isWhiteSpace c then trimStart s' else s
  end.

Fixpoint trimEnd (s : string) : string :=
  match s with
  | EmptyString => EmptyString
  | String c s' =>
      match trimEnd s' with
      | EmptyString => if isWhiteSpace c then EmptyString
                       else String c EmptyString
      | t => String c t
      end
  end.

(** [s.trim()] *)
Definition trim (s : string) : string := trimEnd (trimStart s).

(** [s.startsWith(p)] *)
Fixpoint startsWith (s p : string) : bool :=
  match p, s with
  | EmptyString, _ => true
  | String _ _, EmptyString => false
  | String a p', String b s' => Ascii.eqb a b && startsWith s' p'
  end.

(** [s.includes(p)]: [p] occurs in [s] at some position. *)
Fixpoint includes (s p : string) : bool :=
  startsWith s p ||
  match s with
  | EmptyString => false
  | String _ s' => includes s' p
  end.

(** Splitting at every character satisfying [sep]; the result is never
    empty and keeps the empty pieces, as [split] does. *)
Fixpoint splitBy (sep : ascii -> bool) (s : string) : list string :=
  match s with
  | EmptyString => [EmptyString]
  | String c s' =>
      if sep c then EmptyString :: splitBy sep s'
      else match splitBy sep s' with
           | w :: ws => String c w :: ws
           | [] => [String c EmptyString]
           end
  end.

(** [s.split(" ")] *)
Definition split (s : string) : list string :=
  splitBy (Ascii.eqb " "%char) s.

(** [l.join(sep)] *)
Fixpoint join (sep : string) (l : list string) : string :=
  match l with
  | [] => EmptyString
  | [w] => w
  | w :: ws => w ++ sep ++ join sep ws
  end.

(** [l.includes(w)] on an array of strings *)
Definition arrayIncludes (l : list string) (w : string) : bool :=
  existsb (String.eqb w) l.

(** Truthiness of a string: only the empty string is falsy. *)
Definition truthy (s : string) : bool :=
  match s with EmptyString => false | String _ _ => true end.

End JsString.

Import JsString.

(** ** The data model *)

(** The values [currentTopic] takes at run time. *)
Inductive Topic : Type :=
| TNull
| TUndefined
| TString (s : string).

Record ConversationContext : Type := mkContext
  { currentTopic : Topic;
    attemptCount : Z;
    isLearningMode : bool }.

(** One entry of [conversationHistory]. *)
Record Message : Type := mkMessage
  { role : string;
    text : string }.

Definition topicTruthy (t : Topic) : bool :=
  match t with
  | TString s => truthy s
  | TNull | TUndefined => false
  end.

(** The context [{ currentTopic: null, attemptCount: 0, isLearningMode: false }]. *)
Definition chatContext : ConversationContext := mkContext TNull 0 false.

(** ** The classifier: phrase tables and flags *)

Definition weatherPatterns : list string :=
  ["weather"; "temperature"; "how hot"; "how cold"; "climate"; "forecast"].

Definition newsPatterns : list string :=
  ["news"; "today's news"; "latest news"; "current events"; "headlines";
   "what's happening"; "news update"].

Definition solutionRequestPhrases : list string :=
  ["give me the answer"; "give the answer"; "just give me";
   "give me solution"; "give the solution"; "show me the answer";
   "show the solution"; "what is the solution"; "what's the solution";
   "tell me the solution"; "just show me"; "just tell me"].

Definition attemptPhrases : list string :=
  ["i tried"; "i think"; "maybe"; "is it"; "would it be"; "should i";
   "idk"; "i don't know"; "not sure"; "i'm stuck"; "can't figure"].

Definition backToPreviousPhrases : list string :=
  ["back to"; "return to"; "again about"; "still don't get"].

Definition learningKeywords : list string :=
  ["how do i"; "how to"; "how about"; "what about"; "explain"; "solve";
   "algorithm for"; "solution for"; "implement"].

Definition followUpKeywords : list string :=
  ["time complexity"; "space complexity"; "complexity"; "why does this";
   "why is"; "can you explain more"; "what do you mean"; "how does that";
   "give me a hint"; "give hint"; "another hint"].

Definition chatKeywords : list string :=
  ["hello"; "hi"; "hey"; "thanks"; "thank you"; "okay"; "ok"; "got it";
   "cool"].

Definition stopWords : list string :=
  ["how"; "to"; "the"; "a"; "an"; "what"; "is"; "explain"; "can"; "you";
   "i"; "do"; "about"; "for"].

(** [phrases.some(p => msgLower.includes(p))] *)
Definition someIncluded (phrases : list string) (msgLower : string) : bool :=
  existsb (fun p => includes msgLower p) phrases.

Definition isWeatherRequest (msgLower : string) : bool :=
  someIncluded weatherPatterns msgLower.
Definition isNewsRequest (msgLower : string) : bool :=
  someIncluded newsPatterns msgLower.
Definition isAskingForSolution (msgLower : string) : bool :=
  someIncluded solutionRequestPhrases msgLower.
Definition isGenuineAttempt (msgLower : string) : bool :=
  someIncluded attemptPhrases msgLower.
Definition isReturningToPrevious (msgLower : string) : bool :=
  someIncluded backToPreviousPhrases msgLower.
Definition isNewLearningQuestion (msgLower : string) : bool :=
  someIncluded learningKeywords msgLower.
Definition isFollowUp (msgLower : string) : bool :=
  someIncluded followUpKeywords msgLower.

Definition isGeneralChat (msgLower : string) : bool :=
  existsb (fun kw => String.eqb msgLower kw
                     || startsWith msgLower (kw ++ " ")
                     || startsWith msgLower (kw ++ "!"))
          chatKeywords.

(** [extractTopic]: the first three words that are no stop word and are
    longer than three characters. *)
Definition meaningful (words : list string) : list string :=
  filter (fun w => negb (arrayIncludes stopWords w) && (3 <? String.length w)%nat) words.

Definition extractTopic (msg : string) : string :=
  let words := split (toLowerCase msg) in
  join " " (firstn 3 (meaningful words)).

(** The topics of the user's earlier messages, oldest first, the empty
    ones dropped. *)
Definition previousTopics (conversationHistory : list Message) : list string :=
  filter (fun topic => (0 <? String.length topic)%nat)
    (map (fun msg => extractTopic (text msg))
       (filter (fun msg => String.eqb (role msg) "user") conversationHistory)).

(** [topics[i]] for a JavaScript index [i]. *)
Definition topicAt (topics : list string) (i : Z) : Topic :=
  if (i <? 0)%Z then TUndefined
  else match nth_error topics (Z.to_nat i) with
       | Some t => TString t
       | None => TUndefined
       end.

(** [topic.split(' ')[0]] *)
Definition firstWord (topic : string) : string :=
  hd EmptyString (split topic).

(** [topics.find(t => msgLower.includes(t.split(' ')[0]))
     || topics[topics.length - 2]] *)
Definition relevantTopic (msgLower : string) (topics : list string) : Topic :=
  let fallback := topicAt topics (Z.of_nat (List.length topics) - 2) in
  match find (fun topic => includes msgLower (firstWord topic)) topics with
  | Some t => if truthy t then TString t else fallback
  | None => fallback
  end.

(** ** [analyzeContext] *)

(** [message.toLowerCase().trim()] *)
Definition lowerTrim (message : string) : string :=
  trim (toLowerCase message).

(** The rules in the order of the source.  The back-reference rule tests
    the history and then the topic list; both tests fall through to the
    same rules, so they are one conjunction here.  The rules that read
    [previousContext?.f] are falsy without a previous context, and
    [previousContext || {...}] is then the chat context. *)
Definition analyzeContext (message : string)
    (conversationHistory : list Message)
    (previousContext : option ConversationContext) : ConversationContext :=
  let msgLower := lowerTrim message in
  if isWeatherRequest msgLower || isNewsRequest msgLower then
    mkContext TNull 0 false
  else if isGeneralChat msgLower && negb (isNewLearningQuestion msgLower) then
    mkContext TNull 0 false
  else if isNewLearningQuestion msgLower
          && negb (isReturningToPrevious msgLower) then
    mkContext (TString (extractTopic message)) 0 true
  else if isReturningToPrevious msgLower
          && (0 <? List.length conversationHistory)%nat
          && (0 <? List.length (previousTopics conversationHistory))%nat then
    mkContext (relevantTopic msgLower (previousTopics conversationHistory))
              0 true
  else
    match previousContext with
    | Some pc =>
        if isFollowUp msgLower && topicTruthy (currentTopic pc) then
          mkContext (currentTopic pc) (attemptCount pc) true
        else if isAskingForSolution msgLower && isLearningMode pc then
          mkContext (currentTopic pc) (Z.max (attemptCount pc) 3) true
        else if isGenuineAttempt msgLower && isLearningMode pc
                && topicTruthy (currentTopic pc) then
          mkContext (currentTopic pc) (attemptCount pc + 1) true
        else if isLearningMode pc && topicTruthy (currentTopic pc)
                && negb (isFollowUp msgLower)
                && negb (isAskingForSolution msgLower)
                && (10 <? String.length message)%nat then
          mkContext (currentTopic pc) (attemptCount pc + 1) true
        else pc
    | None => mkContext TNull 0 false
    end.

(** The guards of the first four rules, as [analyzeContext] tests them
    on [msgLower]; a message reaches the rules that read
    [previousContext] when none of them holds. *)
Definition realTimeRule (msgLower : string) : bool :=
  isWeatherRequest msgLower || isNewsRequest msgLower.

Definition generalChatRule (msgLower : string) : bool :=
  isGeneralChat msgLower && negb (isNewLearningQuestion msgLower).

Definition newQuestionRule (msgLower : string) : bool :=
  isNewLearningQuestion msgLower && negb (isReturningToPrevious msgLower).

Definition returningRule (msgLower : string)
    (conversationHistory : list Message) : bool :=
  isReturningToPrevious msgLower
  && (0 <? List.length conversationHistory)%nat
  && (0 <? List.length (previousTopics conversationHistory))%nat.

Definition earlierRulesSkip (msgLower : string)
    (conversationHistory : list Message) : bool :=
  negb (realTimeRule msgLower)
  && negb (generalChatRule msgLower)
  && negb (newQuestionRule msgLower)
  && negb (returningRule msgLower conversationHistory).

(** The invariant of the data model: outside learning mode there is no
    topic. *)
Definition topicInvariant (ctx : ConversationContext) : Prop :=
  isLearningMode ctx = false -> currentTopic ctx = TNull.

(** The contexts of a session: the first turn has no previous context,
    every later turn is given the context of the turn before. *)
Inductive sessionContext : ConversationContext -> Prop :=
| firstTurn (message : string) (history : list Message) :
    sessionContext (analyzeContext message history None)
| nextTurn (message : string) (history : list Message)
    (pc : ConversationContext) :
    sessionContext pc ->
    sessionContext (analyzeContext message history (Some pc)).

(** ** The system prompt of [chat] *)

Definition newline : string := String "010"%char EmptyString.
Definition dquote : string := String "034"%char EmptyString.

(** A template literal, one line per entry. *)
Definition template (lines : list string) : string := join newline lines.

(** [`${n}`] for an integer [n]. *)
Definition numberToString (n : Z) : string :=
  NilZero.string_of_int (Z.to_int n).

(** [`${currentTopic}`] *)
Definition topicToString (t : Topic) : string :=
  match t with
  | TNull => "null"
  | TUndefined => "undefined"
  | TString s => s
  end.

Definition basePrompt : string :=
  template
    ["You are ThinkFirst AI, an intelligent educational assistant that adapts to the user's needs.";
     EmptyString;
     "**YOUR CORE RULES:**";
     "1. **RESPOND DIRECTLY** - Give your answer immediately without explaining your thought process";
     "2. **NO META-COMMENTARY** - Don't say things like " ++ dquote
       ++ "Here's how to proceed" ++ dquote;
     "3. **BE NATURAL** - Talk like a friendly tutor, not a robot";
     "4. **USE REAL-TIME DATA** - When real-time data is provided in [REAL-TIME DATA] sections, YOU MUST use it naturally in your response. NEVER say "
       ++ dquote ++ "I don't have access to real-time data" ++ dquote
       ++ " when data is provided.";
     EmptyString;
     "**BEHAVIOR:**";
     EmptyString;
     "**For General Chat:**";
     "- Answer naturally and conversationally";
     "- Be friendly and helpful"].

Definition learningHeader (currentTopic : Topic) (attemptCount : Z) : string :=
  template
    [EmptyString;
     EmptyString;
     "**CURRENT MODE: LEARNING MODE**";
     "Topic: " ++ dquote ++ topicToString currentTopic ++ dquote;
     "Attempt: " ++ numberToString attemptCount;
     EmptyString;
     "**PROGRESSIVE GUIDANCE:**";
     EmptyString].

Definition hintDirective : string :=
  "Set isHint: true, isSolution: false, mode: " ++ dquote ++ "learning"
  ++ dquote.

Definition solutionDirective : string :=
  "Set isHint: false, isSolution: true, mode: " ++ dquote ++ "learning"
  ++ dquote.

(** The text appended by the chain of tests on [attemptCount]. *)
Definition guidance (attemptCount : Z) : string :=
  if (attemptCount =? 0)%Z then
    template
      ["- This is the FIRST interaction with this topic";
       "- Give a conceptual hint that makes them think";
       "- Ask guiding questions to assess their understanding";
       "- " ++ hintDirective]
  else if (attemptCount =? 1)%Z then
    template
      ["- This is attempt " ++ numberToString attemptCount
         ++ " (SECOND attempt)";
       "- Provide stronger hints with techniques or approaches";
       "- Point toward relevant concepts/algorithms";
       "- " ++ hintDirective]
  else if (attemptCount =? 2)%Z then
    template
      ["- This is attempt " ++ numberToString attemptCount
         ++ " (THIRD attempt)";
       "- Give pseudocode or step-by-step roadmap";
       "- Be explicit about the approach";
       "- " ++ hintDirective]
  else
    template
      ["- This is attempt " ++ numberToString attemptCount
         ++ " (FOURTH+ attempt or direct solution request)";
       "- Provide COMPLETE solution with detailed explanation";
       "- Include code examples with proper syntax";
       "- Explain WHY each step works";
       "- " ++ solutionDirective].

Definition followUpNote : string :=
  template
    [EmptyString;
     EmptyString;
     "**IMPORTANT:** If user asks a follow-up question about complexity or clarification, answer directly without treating it as a new attempt."].

Definition systemPrompt (currentContext : ConversationContext) : string :=
  basePrompt ++
  (if isLearningMode currentContext then
     learningHeader (currentTopic currentContext)
                    (attemptCount currentContext)
     ++ guidance (attemptCount currentContext)
     ++ followUpNote
   else EmptyString).

(** ** The guidance tiers of the specification *)

Inductive Tier : Type :=
| ConceptualHint
| StrongerHint
| Roadmap
| FullSolution.

(** The sentence by which the instruction text asks for a tier. *)
Definition tierSentence (t : Tier) : string :=
  match t with
  | ConceptualHint => "Give a conceptual hint that makes them think"
  | StrongerHint => "Provide stronger hints with techniques or approaches"
  | Roadmap => "Give pseudocode or step-by-step roadmap"
  | FullSolution => "Provide COMPLETE solution with detailed explanation"
  end.

Definition allTiers : list Tier :=
  [ConceptualHint; StrongerHint; Roadmap; FullSolution].

(** The tiers a text asks for, and the flags [(isHint, isSolution)] it
    directs. *)
Definition selectedTiers (instruction : string) : list Tier :=
  filter (fun t => includes instruction (tierSentence t)) allTiers.

Definition directedFlags (instruction : string) : list (bool * bool) :=
  ((if includes instruction hintDirective then [(true, false)] else [])
   ++ (if includes instruction solutionDirective then [(false, true)] else []))%list.

(** Decimal digits, and strings made of characters of one kind. *)
Definition isDigit (c : ascii) : bool :=
  let n := N_of_ascii c in (48 <=? n)%N && (n <=? 57)%N.

Fixpoint allChars (q : ascii -> bool) (s : string) : bool :=
  match s with
  | EmptyString => true
  | String c s' => q c && allChars q s'
  end.

Definition noDigit (s : string) : bool :=
  allChars (fun c => negb (isDigit c)) s.

(** ** The specification's wording, for comparison *)

(** Topic extraction as the specification words it: the message is split
    on white space. *)
Definition specExtractTopic (msg : string) : string :=
  join " " (firstn 3 (meaningful (splitBy isWhiteSpace (toLowerCase msg)))).

(** Messages in which every white-space character is a space. *)
Fixpoint whiteSpaceIsSpaces (s : string) : bool :=
  match s with
  | EmptyString => true
  | String c s' =>
      (negb (isWhiteSpace c) || Ascii.eqb " "%char c) && whiteSpaceIsSpaces s'
  end.

(** The fallback of the back-reference rule as the specification words
    it: of the distinct topics found, the second most recent. *)
Definition secondMostRecentDistinct (topics : list string) : option string :=
  nth_error (nodup string_dec (rev topics)) 1.

(** ** Concrete inputs used below *)

Definition mergeSort (n : Z) : ConversationContext :=
  mkContext (TString "merge sort") n true.

Definition userSays (s : string) : Message := mkMessage "user" s.

(** ** Real-time data detection in [chat] *)

(** [chat] looks for its own marker phrases in [message.toLowerCase()],
    which is not trimmed. *)
Definition chatWeatherPatterns : list string :=
  ["weather"; "temperature"; "how hot"; "how cold"; "climate"; "forecast"].

Definition chatNewsPatterns : list string :=
  ["news"; "latest"; "current events"; "happening"; "today's"; "recent"].

Definition chatWeatherDetected (message : string) : bool :=
  someIncluded chatWeatherPatterns (toLowerCase message).

Definition chatNewsDetected (message : string) : bool :=
  someIncluded chatNewsPatterns (toLowerCase message)
  && negb (includes (toLowerCase message) "weather").

(** *** The city of a weather request *)

Definition isLower (c : ascii) : bool :=
  let n := N_of_ascii c in (97 <=? n)%N && (n <=? 122)%N.

(** The class [[A-Za-z]]; under the flag [i] the classes [[A-Z]] and
    [[a-z]] are this class too. *)
Definition isLetter (c : ascii) : bool := isUpper c || isLower c.

Fixpoint takeWhile (q : ascii -> bool) (s : string) : string :=
  match s with
  | EmptyString => EmptyString
  | String c s' => if q c then String c (takeWhile q s') else EmptyString
  end.

Fixpoint dropWhile (q : ascii -> bool) (s : string) : string :=
  match s with
  | EmptyString => EmptyString
  | String c s' => if q c then dropWhile q s' else s
  end.

Fixpoint skipChars (n : nat) (s : string) : string :=
  match n, s with
  | O, _ => s
  | S _, EmptyString => EmptyString
  | S n', String _ s' => skipChars n' s'
  end.

(** A match of [/kw\s+([A-Za-z]+)/i] that starts at the first character
    of [s], for a lowercase word [kw]: the captured group.  White space
    and letters are disjoint, so the greedy runs are the only way to
    match. *)
Definition cityAfter (kw : string) (s : string) : option string :=
  if startsWith (toLowerCase s) kw then
    let rest := skipChars (String.length kw) s in
    match takeWhile isWhiteSpace rest with
    | EmptyString => None
    | String _ _ =>
        match takeWhile isLetter (dropWhile isWhiteSpace rest) with
        | EmptyString => None
        | String c w => Some (String c w)
        end
    end
  else None.

(** A match of [/([A-Z][a-z]+)\s+weather/i] that starts at the first
    character of [s]: the captured group, a run of at least two letters. *)
Definition cityBeforeWeather (s : string) : option string :=
  let word := takeWhile isLetter s in
  if (2 <=? String.length word)%nat then
    let rest := dropWhile isLetter s in
    match takeWhile isWhiteSpace rest with
    | EmptyString => None
    | String _ _ =>
        if startsWith (toLowerCase (dropWhile isWhiteSpace rest)) "weather"
        then Some word else None
    end
  else None.

(** [s.match(re)] for a regular expression without the flag [g]: the
    leftmost position at which it matches. *)
Fixpoint searchFrom {A : Type} (matchAt : string -> option A) (s : string)
  : option A :=
  match matchAt s with
  | Some r => Some r
  | None =>
      match s with
      | EmptyString => None
      | String _ s' => searchFrom matchAt s'
      end
  end.

(** [cityMatch], the first of the four searches that succeeds. *)
Definition cityMatch (message : string) : option string :=
  match searchFrom (cityAfter "in") message with
  | Some c => Some c
  | None =>
      match searchFrom (cityAfter "at") message with
      | Some c => Some c
      | None =>
          match searchFrom (cityAfter "weather") message with
          | Some c => Some c
          | None => searchFrom cityBeforeWeather message
          end
      end
  end.

(** The city handed to [fetchWeather]. *)
Definition weatherCity (message : string) : string :=
  match cityMatch message with
  | Some c => c
  | None => "Delhi"
  end.

(** *** The query of a news request *)

(** The alternatives of [/news|latest|about|what's|today's|recent/gi]. *)
Definition newsNoise : list string :=
  ["news"; "latest"; "about"; "what's"; "today's"; "recent"].

(** The length of the first alternative that matches at the first
    character of [s], the case ignored. *)
Definition noiseAt (s : string) : option nat :=
  option_map String.length
    (find (fun w => startsWith (toLowerCase s) w) newsNoise).

(** [s.replace(/.../gi, "")]: every match is dropped and the scan goes on
    after it; [skip] counts the characters of a match still to drop. *)
Fixpoint removeNoise (skip : nat) (s : string) : string :=
  match s with
  | EmptyString => EmptyString
  | String c s' =>
      match skip with
      | S k => removeNoise k s'
      | O =>
          match noiseAt s with
          | Some (S k) => removeNoise k s'
          | _ => String c (removeNoise 0 s')
          end
      end
  end.

(** [message.replace(...).trim() || "technology"] *)
Definition newsQuery (message : string) : string :=
  let query := trim (removeNoise 0 message) in
  if truthy query then query else "technology".

(** ** The transcript sent with the system prompt *)

(** [`${msg.role === 'user' ? 'User' : 'AI'}: ${msg.text}`] *)
Definition historyLine (msg : Message) : string :=
  (if String.eqb (role msg) "user" then "User" else "AI")
  ++ ": " ++ text msg.

Definition historyString (conversationHistory : list Message) : string :=
  join newline (map historyLine conversationHistory).

Definition buildPrompt (conversationHistory : list Message)
    (message realTimeData : string) : string :=
  if truthy (historyString conversationHistory) then
    historyString conversationHistory ++ newline ++ newline
    ++ "User: " ++ message ++ realTimeData
  else "User: " ++ message ++ realTimeData.

(** ** The request gate of [chat] *)

(** The values of a parsed request body; numbers are integers. *)
#[warnings="-register-all"]
Inductive JsValue : Type :=
| JUndefined
| JNull
| JBool (b : bool)
| JNumber (n : Z)
| JString (s : string)
| JArray (items : list JsValue)
| JObject (fields : list (string * JsValue)).

Definition jsTruthy (v : JsValue) : bool :=
  match v with
  | JUndefined | JNull => false
  | JBool b => b
  | JNumber n => negb (n =? 0)%Z
  | JString s => truthy s
  | JArray _ | JObject _ => true
  end.

Definition isString (v : JsValue) : bool :=
  match v with JString _ => true | _ => false end.

Definition isArray (v : JsValue) : bool :=
  match v with JArray _ => true | _ => false end.

Fixpoint lookupField (fields : list (string * JsValue)) (key : string)
  : JsValue :=
  match fields with
  | [] => JUndefined
  | (k, v) :: rest => if String.eqb k key then v else lookupField rest key
  end.

(** Reading a named property while destructuring: [None] is the
    [TypeError] raised on [undefined] and [null]; a value that is no
    object has none of the three properties read here. *)
Definition property (v : JsValue) (key : string) : option JsValue :=
  match v with
  | JUndefined | JNull => None
  | JObject fields => Some (lookupField fields key)
  | JBool _ | JNumber _ | JString _ | JArray _ => Some JUndefined
  end.

Record Request : Type := mkRequest
  { method : string;
    body : JsValue }.

(** What [chat] does with a request before it calls [analyzeContext]:
    it answers with a status and an error text, or goes on with the three
    values read from the body. *)
Inductive Outcome : Type :=
| Respond (status : nat) (error : string)
| Analyze (message conversationHistory conversationContext : JsValue).

Definition chatGate (req : Request) : Outcome :=
  if String.eqb (method req) "OPTIONS" then Respond 204 EmptyString
  else if negb (String.eqb (method req) "POST") then
    Respond 405 "Method Not Allowed"
  else
    match property (body req) "message",
          property (body req) "conversationHistory",
          property (body req) "conversationContext" with
    | Some message, Some conversationHistory, Some conversationContext =>
        if negb (jsTruthy message) || negb (isString message) then
          Respond 400 "Invalid message"
        else if negb (isArray conversationHistory) then
          Respond 400 "Invalid conversation history"
        else Analyze message conversationHistory conversationContext
    | _, _, _ => Respond 500 "Internal server error"
    end.

(** ** Predicates used in the statements *)

(** The last character of a non-empty string is no white space. *)
Fixpoint endsSolid (p : string) : bool :=
  match p with
  | EmptyString => false
  | String c EmptyString => negb (isWhiteSpace c)
  | String _ p' => endsSolid p'
  end.

(** The first character of a non-empty string is no white space. *)
Definition startsSolid (p : string) : bool :=
  match p with
  | EmptyString => false
  | String c _ => negb (isWhiteSpace c)
  end.

Definition isUserMessage (msg : Message) : bool :=
  String.eqb (role msg) "user".

(** What a city pattern captures: a non-empty run of letters of the
    text it is matched on. *)
Definition capturedFrom (s c : string) : Prop :=
  c <> EmptyString /\ allChars isLetter c = true
  /\ exists pre post, s = pre ++ c ++ post.

(** The turns of a conversation replayed from a context: each turn is a
    message with the history sent along, and is classified with the
    context returned for the turn before. *)
Definition replay (turns : list (string * list Message))
    (ctx : ConversationContext) : ConversationContext :=
  fold_left (fun c turn => analyzeContext (fst turn) (snd turn) (Some c))
            turns ctx.

(** A turn that counts as an attempt in learning mode: no earlier rule
    catches it, it is neither a follow-up nor a solution request, and it
    holds an attempt phrase or is longer than ten characters. *)
Definition attemptTurn (turn : string * list Message) : bool :=
  earlierRulesSkip (lowerTrim (fst turn)) (snd turn)
  && negb (isFollowUp (lowerTrim (fst turn)))
  && negb (isAskingForSolution (lowerTrim (fst turn)))
  && (isGenuineAttempt (lowerTrim (fst turn))
      || (10 <? String.length (fst turn))%nat).

(** *** The instruction around the quoted topic *)











(** The separator of [split(" ")]. *)
Definition isSpace (c : ascii) : bool := Ascii.eqb " "%char c.

(** Characters that [toLowerCase] leaves as they are. *)
Definition lowerFixed (c : ascii) : bool := Ascii.eqb (lowerChar c) c.

Definition notSpace (c : ascii) : bool := negb (isSpace c).

(** * Properties *)

(** ** The string primitives *)

Lemma append_assoc (a b c : string) : (a ++ b) ++ c = a ++ (b ++ c).
Proof.
  induction a as [|x a IH]; simpl; [reflexivity | rewrite IH; reflexivity].
Qed.

Lemma startsWith_spec (s p : string) :
  startsWith s p = true <-> exists rest, s = p ++ rest.
Proof.
  revert s. induction p as [|a p IH]; intros s.
  - split; [intros _; exists s; reflexivity | intros _; destruct s; reflexivity].
  - destruct s as [|b s]; simpl.
    + split; [discriminate | intros [rest E]; discriminate E].
    + rewrite andb_true_iff, Ascii.eqb_eq, IH. split.
      * intros [-> [rest ->]]. exists rest. reflexivity.
      * intros [rest E]. injection E as -> ->.
        split; [reflexivity | exists rest; reflexivity].
Qed.

Lemma includes_unfold (s p : string) :
  includes s p
  = startsWith s p
    || match s with
       | EmptyString => false
       | String _ s' => includes s' p
       end.
Proof. destruct s; reflexivity. Qed.

(** [includes] is the substring test. *)
Lemma includes_spec (s p : string) :
  includes s p = true <-> exists before after, s = before ++ p ++ after.
Proof.
  split.
  - induction s as [|c s IH]; rewrite includes_unfold, orb_true_iff.
    + intros [H|H]; [|discriminate H].
      apply startsWith_spec in H. destruct H as [rest E].
      exists EmptyString, rest. exact E.
    + intros [H|H].
      * apply startsWith_spec in H. destruct H as [rest E].
        exists EmptyString, rest. exact E.
      * destruct (IH H) as (before & after & E).
        exists (String c before), after. rewrite E. reflexivity.
  - intros (before & after & E). subst s.
    induction before as [|c before IH]; rewrite includes_unfold.
    + assert (H : startsWith (EmptyString ++ p ++ after) p = true).
      { apply startsWith_spec. exists after. reflexivity. }
      rewrite H. reflexivity.
    + change (String c before ++ p ++ after)
        with (String c (before ++ p ++ after)).
      cbv iota. rewrite IH. apply orb_true_r.
Qed.

(** A flag of the classifier holds when one of its phrases occurs in the
    message. *)
Lemma someIncluded_spec (phrases : list string) (m : string) :
  someIncluded phrases m = true
  <-> exists p before after, In p phrases /\ m = before ++ p ++ after.
Proof.
  unfold someIncluded. rewrite existsb_exists. split.
  - intros (p & Hin & H). apply includes_spec in H.
    destruct H as (before & after & E). exists p, before, after. auto.
  - intros (p & before & after & Hin & E). exists p.
    split; [exact Hin | apply includes_spec; exists before, after; exact E].
Qed.

(** A greeting is a chat keyword alone, or one followed by a space or by
    an exclamation mark. *)
Lemma isGeneralChat_spec (m : string) :
  isGeneralChat m = true
  <-> exists kw, In kw chatKeywords
                 /\ (m = kw
                     \/ (exists rest, m = kw ++ " " ++ rest)
                     \/ (exists rest, m = kw ++ "!" ++ rest)).
Proof.
  unfold isGeneralChat. rewrite existsb_exists.
  split; intros (kw & Hin & H); exists kw; (split; [exact Hin|]).
  - rewrite !orb_true_iff, String.eqb_eq, !startsWith_spec in H.
    destruct H as [[H|[rest H]]|[rest H]].
    + left. exact H.
    + right. left. exists rest. rewrite H. apply append_assoc.
    + right. right. exists rest. rewrite H. apply append_assoc.
  - rewrite !orb_true_iff, String.eqb_eq, !startsWith_spec.
    destruct H as [H|[[rest H]|[rest H]]].
    + left. left. exact H.
    + left. right. exists rest. rewrite H. symmetry. apply append_assoc.
    + right. exists rest. rewrite H. symmetry. apply append_assoc.
Qed.

(** ** Rule order *)

(** Rewrites the guards known from the context into the chain of tests
    of [analyzeContext]. *)
Ltac use_guards :=
  repeat match goal with
         | H : ?b = true |- context [if ?b then _ else _] => rewrite H
         | H : ?b = false |- context [if ?b then _ else _] => rewrite H
         end.

Lemma earlierRulesSkip_guards (m : string) (hist : list Message) :
  earlierRulesSkip m hist = true ->
  realTimeRule m = false /\ generalChatRule m = false
  /\ newQuestionRule m = false /\ returningRule m hist = false.
Proof.
  unfold earlierRulesSkip. intros H.
  repeat (apply andb_true_iff in H; destruct H as [H ?]).
  repeat split; apply negb_true_iff; assumption.
Qed.

(** A message that no earlier rule catches is classified by the rules
    that read the previous context. *)
Lemma analyzeContext_later_rules (msg : string) (hist : list Message)
    (prev : option ConversationContext) :
  earlierRulesSkip (lowerTrim msg) hist = true ->
  analyzeContext msg hist prev =
  match prev with
  | Some pc =>
      let m := lowerTrim msg in
      if isFollowUp m && topicTruthy (currentTopic pc) then
        mkContext (currentTopic pc) (attemptCount pc) true
      else if isAskingForSolution m && isLearningMode pc then
        mkContext (currentTopic pc) (Z.max (attemptCount pc) 3) true
      else if isGenuineAttempt m && isLearningMode pc
              && topicTruthy (currentTopic pc) then
        mkContext (currentTopic pc) (attemptCount pc + 1) true
      else if isLearningMode pc && topicTruthy (currentTopic pc)
              && negb (isFollowUp m) && negb (isAskingForSolution m)
              && (10 <? String.length msg)%nat then
        mkContext (currentTopic pc) (attemptCount pc + 1) true
      else pc
  | None => mkContext TNull 0 false
  end.
Proof.
  intros H. apply earlierRulesSkip_guards in H.
  destruct H as (H1 & H2 & H3 & H4).
  unfold realTimeRule, generalChatRule, newQuestionRule, returningRule in *.
  unfold analyzeContext. cbv zeta. use_guards. reflexivity.
Qed.

(** ** Real-time data requests *)

(** C2. A message whose lowercased, trimmed text holds a weather or a
    news marker is classified as [{null, 0, false}], whatever the history
    and the previous context (absent or not). *)
Theorem realtime_request_forces_chat (msg : string) (hist : list Message)
    (prev : option ConversationContext) :
  isWeatherRequest (lowerTrim msg) = true
  \/ isNewsRequest (lowerTrim msg) = true ->
  analyzeContext msg hist prev = mkContext TNull 0 false.
Proof.
  intros H. unfold analyzeContext. cbv zeta.
  assert (E : isWeatherRequest (lowerTrim msg)
              || isNewsRequest (lowerTrim msg) = true).
  { apply orb_true_iff. exact H. }
  rewrite E. reflexivity.
Qed.

Lemma realtime_request_forces_chat_witness :
  (isWeatherRequest (lowerTrim "what's the weather in Paris") = true
   \/ isNewsRequest (lowerTrim "what's the weather in Paris") = true)
  /\ analyzeContext "what's the weather in Paris" [] (Some (mergeSort 2))
     = mkContext TNull 0 false.
Proof.
  split.
  - left. vm_compute. reflexivity.
  - apply (realtime_request_forces_chat "what's the weather in Paris" []
             (Some (mergeSort 2))).
    left. vm_compute. reflexivity.
Defined.

(** ** Greetings *)

(** C9. A greeting or acknowledgement (a chat keyword alone, or followed
    by a space or an exclamation mark) that holds no learning keyword is
    classified as [{null, 0, false}] whatever the previous context, so
    classifying it a second time, from the context just returned, gives
    [{null, 0, false}] again. *)
Theorem greeting_resets (msg : string) (hist hist' : list Message)
    (prev : option ConversationContext) :
  isGeneralChat (lowerTrim msg) = true ->
  isNewLearningQuestion (lowerTrim msg) = false ->
  analyzeContext msg hist prev = chatContext
  /\ analyzeContext msg hist' (Some (analyzeContext msg hist prev))
     = chatContext.
Proof.
  intros Hchat Hnew.
  assert (R : forall h p, analyzeContext msg h p = chatContext).
  { intros h p. unfold analyzeContext. cbv zeta.
    rewrite Hchat, Hnew. simpl.
    destruct (isWeatherRequest (lowerTrim msg) || isNewsRequest (lowerTrim msg));
      reflexivity. }
  split; apply R.
Qed.

Lemma greeting_resets_witness :
  isGeneralChat (lowerTrim "Thanks!") = true
  /\ isNewLearningQuestion (lowerTrim "Thanks!") = false
  /\ analyzeContext "Thanks!" [] (Some (mergeSort 2)) = chatContext
  /\ analyzeContext "Thanks!" [userSays "Thanks!"]
       (Some (analyzeContext "Thanks!" [] (Some (mergeSort 2))))
     = chatContext.
Proof.
  split; [vm_compute; reflexivity|].
  split; [vm_compute; reflexivity|].
  apply (greeting_resets "Thanks!" [] [userSays "Thanks!"]
           (Some (mergeSort 2))); vm_compute; reflexivity.
Defined.

(** ** Direct solution requests *)

(** C4. A message with a solution-request phrase that no earlier rule
    catches, on a previous context in learning mode, keeps the topic,
    stays in learning mode and raises [attemptCount] to
    [max(attemptCount, 3)]; from [attemptCount = 0] the result is 3. *)
Theorem solution_request_jumps (msg : string) (hist : list Message)
    (pc : ConversationContext) :
  earlierRulesSkip (lowerTrim msg) hist = true ->
  isFollowUp (lowerTrim msg) && topicTruthy (currentTopic pc) = false ->
  isAskingForSolution (lowerTrim msg) = true ->
  isLearningMode pc = true ->
  analyzeContext msg hist (Some pc)
  = mkContext (currentTopic pc) (Z.max (attemptCount pc) 3) true
  /\ (attemptCount pc = 0%Z ->
      attemptCount (analyzeContext msg hist (Some pc)) = 3%Z).
Proof.
  intros Hskip Hfollow Hsol Hlearn.
  rewrite (analyzeContext_later_rules _ _ _ Hskip). cbv zeta.
  rewrite Hfollow, Hsol, Hlearn. simpl.
  split; [reflexivity|]. intros ->. reflexivity.
Qed.

Lemma solution_request_jumps_witness :
  analyzeContext "just give me the answer" [] (Some (mergeSort 0))
  = mergeSort 3
  /\ attemptCount
       (analyzeContext "just give me the answer" [] (Some (mergeSort 0)))
     = 3%Z.
Proof.
  destruct (solution_request_jumps "just give me the answer" []
              (mergeSort 0)) as [E A];
    try (vm_compute; reflexivity).
  split; [exact E | apply A; reflexivity].
Defined.

(** ** Genuine attempts *)

(** C7, as stated, fails on the empty topic.  "how to do it" opens a
    session with the topic [""]; this context is in learning mode and its
    topic is a string, yet the empty string is falsy, the attempt rule is
    passed over, and "I tried recursion but got stuck", which no earlier
    rule catches, comes back with the attempt count still 0. *)
Lemma attempt_on_empty_topic_not_counted :
  analyzeContext "how to do it" [] None
  = mkContext (TString EmptyString) 0 true
  /\ earlierRulesSkip (lowerTrim "I tried recursion but got stuck") [] = true
  /\ isFollowUp (lowerTrim "I tried recursion but got stuck") = false
  /\ isAskingForSolution (lowerTrim "I tried recursion but got stuck") = false
  /\ isGenuineAttempt (lowerTrim "I tried recursion but got stuck") = true
  /\ attemptCount
       (analyzeContext "I tried recursion but got stuck" []
          (Some (analyzeContext "how to do it" [] None)))
     <> (attemptCount (analyzeContext "how to do it" [] None) + 1)%Z.
Proof.
  repeat (split; [vm_compute; reflexivity|]).
  vm_compute. discriminate.
Qed.

(** C7, amended. A message with an attempt or uncertainty phrase that no
    earlier rule catches, on a previous context in learning mode whose
    topic is a non-empty string, keeps the topic, stays in learning mode
    and adds one to [attemptCount]; so does "I tried recursion but got
    stuck" on [{merge sort, 0, true}]. *)
Theorem genuine_attempt_increments (msg : string) (hist : list Message)
    (pc : ConversationContext) :
  earlierRulesSkip (lowerTrim msg) hist = true ->
  isFollowUp (lowerTrim msg) = false ->
  isAskingForSolution (lowerTrim msg) = false ->
  isGenuineAttempt (lowerTrim msg) = true ->
  isLearningMode pc = true ->
  topicTruthy (currentTopic pc) = true ->
  analyzeContext msg hist (Some pc)
  = mkContext (currentTopic pc) (attemptCount pc + 1) true.
Proof.
  intros Hskip Hfollow Hsol Hatt Hlearn Htopic.
  rewrite (analyzeContext_later_rules _ _ _ Hskip). cbv zeta.
  rewrite Hfollow, Hsol, Hatt, Hlearn, Htopic. reflexivity.
Qed.

Lemma genuine_attempt_increments_witness :
  analyzeContext "I tried recursion but got stuck" [] (Some (mergeSort 0))
  = mergeSort 1.
Proof.
  apply (genuine_attempt_increments "I tried recursion but got stuck" []
           (mergeSort 0)); vm_compute; reflexivity.
Defined.

(** The empty string is falsy: a context whose topic is the empty string
    counts as having no topic, and an attempt leaves it as it is. *)
Remark attempt_on_empty_topic :
  analyzeContext "I tried recursion but got stuck" []
    (Some (mkContext (TString EmptyString) 0 true))
  = mkContext (TString EmptyString) 0 true.
Proof. vm_compute. reflexivity. Qed.

(** ** Follow-up questions *)

(** C1, as stated, fails on its own scenario: "what about time
    complexity?" holds the follow-up marker "time complexity" and the
    previous topic is not null, yet "what about" is a learning keyword,
    the new-question rule comes first, and the attempts are reset.  It
    also fails on the empty topic, which "how to do it" produces: the
    empty string is not null but falsy, the follow-up rule is passed
    over, and the solution-request rule raises the attempts from 0 to
    3. *)
Lemma follow_up_scenario_resets_attempts :
  isFollowUp (lowerTrim "what about time complexity?") = true
  /\ currentTopic (mergeSort 1) <> TNull
  /\ attemptCount
       (analyzeContext "what about time complexity?" [] (Some (mergeSort 1)))
     <> attemptCount (mergeSort 1)
  /\ analyzeContext "what about time complexity?" [] (Some (mergeSort 1))
     <> mergeSort 1
  /\ isFollowUp (lowerTrim "just give me the time complexity") = true
  /\ analyzeContext "how to do it" [] None
     = mkContext (TString EmptyString) 0 true
  /\ attemptCount
       (analyzeContext "just give me the time complexity" []
          (Some (mkContext (TString EmptyString) 0 true)))
     = 3%Z.
Proof.
  split; [vm_compute; reflexivity|].
  split; [discriminate|].
  split; [vm_compute; discriminate|].
  split; [vm_compute; discriminate|].
  repeat split; vm_compute; reflexivity.
Qed.

(** C1, amended. A message with a follow-up marker that no earlier rule
    catches, on a previous context whose topic is a non-empty string,
    keeps topic and [attemptCount] and is in learning mode; so
    "time complexity?" on [{merge sort, 1, true}] returns that context,
    while "what about time complexity?" is a new learning question and
    returns [{time complexity?, 0, true}]. *)
Theorem follow_up_keeps_attempts :
  (forall (msg : string) (hist : list Message) (pc : ConversationContext),
      earlierRulesSkip (lowerTrim msg) hist = true ->
      isFollowUp (lowerTrim msg) = true ->
      topicTruthy (currentTopic pc) = true ->
      analyzeContext msg hist (Some pc)
      = mkContext (currentTopic pc) (attemptCount pc) true)
  /\ analyzeContext "time complexity?" [] (Some (mergeSort 1)) = mergeSort 1
  /\ analyzeContext "what about time complexity?" [] (Some (mergeSort 1))
     = mkContext (TString "time complexity?") 0 true.
Proof.
  split.
  - intros msg hist pc Hskip Hfollow Htopic.
    rewrite (analyzeContext_later_rules _ _ _ Hskip). cbv zeta.
    rewrite Hfollow, Htopic. reflexivity.
  - split; vm_compute; reflexivity.
Qed.

Lemma follow_up_keeps_attempts_witness :
  earlierRulesSkip (lowerTrim "Why is it stable?") [] = true
  /\ isFollowUp (lowerTrim "Why is it stable?") = true
  /\ topicTruthy (currentTopic (mergeSort 2)) = true
  /\ analyzeContext "Why is it stable?" [] (Some (mergeSort 2))
     = mergeSort 2.
Proof.
  repeat (split; [vm_compute; reflexivity|]).
  apply (proj1 follow_up_keeps_attempts "Why is it stable?" []
           (mergeSort 2)); vm_compute; reflexivity.
Defined.

(** ** The topic invariant *)

(** C3, as stated, fails: the default rule hands back the previous
    context as it is, also one that has a topic outside learning mode. *)
Lemma default_rule_returns_topic_outside_learning :
  isLearningMode
    (analyzeContext "yes" [] (Some (mkContext (TString "merge sort") 0 false)))
  = false
  /\ currentTopic
       (analyzeContext "yes" []
          (Some (mkContext (TString "merge sort") 0 false)))
     <> TNull.
Proof. split; vm_compute; [reflexivity | discriminate]. Qed.

Lemma analyzeContext_preserves_invariant (msg : string)
    (hist : list Message) (prev : option ConversationContext) :
  (forall pc, prev = Some pc -> topicInvariant pc) ->
  topicInvariant (analyzeContext msg hist prev).
Proof.
  intros Hprev. unfold analyzeContext. cbv zeta.
  repeat match goal with
         | |- topicInvariant (if ?b then _ else _) => destruct b
         end;
    try (intros H; simpl in H; (reflexivity || discriminate H)).
  destruct prev as [pc|]; [|intros _; reflexivity].
  specialize (Hprev pc eq_refl).
  repeat match goal with
         | |- topicInvariant (if ?b then _ else _) => destruct b
         end;
    try (intros H; simpl in H; discriminate H).
  exact Hprev.
Qed.

(** C3, amended. When the previous context is absent or itself has no
    topic outside learning mode, the returned context has none either;
    hence every context of a session that starts without a previous
    context has [currentTopic] null whenever it is not in learning mode. *)
Theorem topic_invariant_preserved :
  (forall (msg : string) (hist : list Message)
          (prev : option ConversationContext),
      (forall pc, prev = Some pc -> topicInvariant pc) ->
      topicInvariant (analyzeContext msg hist prev))
  /\ (forall ctx, sessionContext ctx ->
                  isLearningMode ctx = false -> currentTopic ctx = TNull).
Proof.
  split.
  - exact analyzeContext_preserves_invariant.
  - intros ctx Hs. induction Hs as [msg hist | msg hist pc Hpc IH].
    + apply analyzeContext_preserves_invariant. intros pc E. discriminate E.
    + apply analyzeContext_preserves_invariant.
      intros pc' E. injection E as <-. exact IH.
Qed.

Lemma topic_invariant_preserved_witness :
  topicInvariant chatContext
  /\ topicInvariant (analyzeContext "yes" [] (Some chatContext)).
Proof.
  split.
  - intros _. reflexivity.
  - apply (proj1 topic_invariant_preserved "yes" [] (Some chatContext)).
    intros pc E. injection E as <-. intros _. reflexivity.
Defined.

(** ** Returning to a previous topic *)

Lemma previousTopics_app (h1 h2 : list Message) :
  previousTopics (h1 ++ h2) = (previousTopics h1 ++ previousTopics h2)%list.
Proof.
  unfold previousTopics.
  rewrite !filter_app, map_app, filter_app. reflexivity.
Qed.

Lemma previousTopics_history (hist : list Message) :
  previousTopics hist <> [] -> (0 <? List.length hist)%nat = true.
Proof.
  destruct hist as [|m hist]; [intros H; exfalso; apply H; reflexivity|].
  intros _. reflexivity.
Qed.

Lemma previousTopics_truthy (hist : list Message) (t : string) :
  In t (previousTopics hist) -> truthy t = true.
Proof.
  unfold previousTopics. intros H. apply filter_In in H.
  destruct H as [_ H]. destruct t; [discriminate H | reflexivity].
Qed.

Lemma find_first {A : Type} (f : A -> bool) (before after : list A) (t : A) :
  (forall u, In u before -> f u = false) -> f t = true ->
  find f (before ++ t :: after) = Some t.
Proof.
  intros Hb Ht. induction before as [|u before IH]; simpl.
  - rewrite Ht. reflexivity.
  - rewrite (Hb u (or_introl eq_refl)).
    apply IH. intros v Hv. apply Hb. right. exact Hv.
Qed.

Lemma find_all_false {A : Type} (f : A -> bool) (l : list A) :
  (forall u, In u l -> f u = false) -> find f l = None.
Proof.
  intros H. induction l as [|u l IH]; simpl; [reflexivity|].
  rewrite (H u (or_introl eq_refl)).
  apply IH. intros v Hv. apply H. right. exact Hv.
Qed.

Lemma topicAt_second_to_last (before : list string) (a b : string) :
  topicAt (before ++ [a; b])
          (Z.of_nat (List.length (before ++ [a; b])) - 2)
  = TString a.
Proof.
  unfold topicAt. rewrite length_app. simpl List.length.
  replace (Z.of_nat (List.length before + 2) - 2)%Z
    with (Z.of_nat (List.length before)) by lia.
  destruct (Z.of_nat (List.length before) <? 0)%Z eqn:E;
    [apply Z.ltb_lt in E; lia|].
  rewrite Nat2Z.id, nth_error_app2 by lia.
  rewrite Nat.sub_diag. reflexivity.
Qed.

(** The back-reference rule fires on every message with a
    back-reference phrase that the real-time and greeting rules let
    through, once the history holds a topic. *)
Lemma analyzeContext_returning (msg : string) (hist : list Message)
    (prev : option ConversationContext) :
  realTimeRule (lowerTrim msg) = false ->
  generalChatRule (lowerTrim msg) = false ->
  isReturningToPrevious (lowerTrim msg) = true ->
  previousTopics hist <> [] ->
  analyzeContext msg hist prev
  = mkContext (relevantTopic (lowerTrim msg) (previousTopics hist)) 0 true.
Proof.
  unfold realTimeRule, generalChatRule. intros H1 H2 H3 H4.
  unfold analyzeContext. cbv zeta. rewrite H1, H2, H3.
  rewrite (previousTopics_history _ H4).
  rewrite andb_false_r. simpl.
  destruct (previousTopics hist) as [|t ts]; [exfalso; apply H4; reflexivity|].
  reflexivity.
Qed.

(** C10. When the message holds a back-reference phrase and reaches the
    back-reference rule, the history yields exactly one topic, and the
    first word of that topic does not occur in the message, the fallback
    reads index [1 - 2 = -1] of the topic list and the returned
    [currentTopic] is [undefined], neither a string nor null; such an
    input exists. *)
Theorem single_topic_return_is_undefined :
  (forall (msg : string) (hist : list Message)
          (prev : option ConversationContext) (t : string),
      realTimeRule (lowerTrim msg) = false ->
      generalChatRule (lowerTrim msg) = false ->
      isReturningToPrevious (lowerTrim msg) = true ->
      previousTopics hist = [t] ->
      includes (lowerTrim msg) (firstWord t) = false ->
      (Z.of_nat (List.length (previousTopics hist)) - 2 = -1)%Z
      /\ analyzeContext msg hist prev = mkContext TUndefined 0 true)
  /\ (exists (msg : string) (hist : list Message)
             (prev : option ConversationContext),
         isReturningToPrevious (lowerTrim msg) = true
         /\ List.length (previousTopics hist) = 1%nat
         /\ currentTopic (analyzeContext msg hist prev) <> TNull
         /\ (forall s, currentTopic (analyzeContext msg hist prev)
                       <> TString s)).
Proof.
  split.
  - intros msg hist prev t H1 H2 H3 Ht Hinc.
    split; [rewrite Ht; reflexivity|].
    rewrite analyzeContext_returning; try assumption.
    + rewrite Ht. unfold relevantTopic. simpl find. rewrite Hinc.
      reflexivity.
    + rewrite Ht. discriminate.
  - exists "let's go back to that", [userSays "explain quicksort algorithm"],
      None.
    split; [vm_compute; reflexivity|].
    split; [vm_compute; reflexivity|].
    split; [vm_compute; discriminate|].
    intros s. vm_compute. discriminate.
Qed.

Lemma single_topic_return_is_undefined_witness :
  previousTopics [userSays "explain quicksort algorithm";
                  mkMessage "assistant" "What do you know about pivots?"]
  = ["quicksort algorithm"]
  /\ analyzeContext "let's go back to that"
       [userSays "explain quicksort algorithm";
        mkMessage "assistant" "What do you know about pivots?"]
       (Some (mergeSort 1))
     = mkContext TUndefined 0 true.
Proof.
  split; [vm_compute; reflexivity|].
  apply (proj1 single_topic_return_is_undefined "let's go back to that"
           [userSays "explain quicksort algorithm";
            mkMessage "assistant" "What do you know about pivots?"]
           (Some (mergeSort 1)) "quicksort algorithm");
    vm_compute; reflexivity.
Defined.

(** C8, as stated, fails in two ways.  A greeting comes first: "ok back
    to merge sort" is reset to chat although "merge sort" is a topic of
    the history.  And the fallback is the entry before the last of the
    topic list, repeated topics included: with topics merge sort,
    quicksort algorithm, quicksort algorithm it is the most recent topic
    again, not merge sort. *)
Lemma returning_rule_not_as_worded :
  (isReturningToPrevious (lowerTrim "ok back to merge sort") = true
   /\ isNewLearningQuestion (lowerTrim "ok back to merge sort") = false
   /\ previousTopics [userSays "explain merge sort";
                      userSays "explain quicksort algorithm"]
      = ["merge sort"; "quicksort algorithm"]
   /\ includes (lowerTrim "ok back to merge sort") (firstWord "merge sort")
      = true
   /\ analyzeContext "ok back to merge sort"
        [userSays "explain merge sort";
         userSays "explain quicksort algorithm"] None
      = mkContext TNull 0 false)
  /\ (isReturningToPrevious (lowerTrim "can we go back to the earlier one")
      = true
      /\ isNewLearningQuestion
           (lowerTrim "can we go back to the earlier one") = false
      /\ previousTopics [userSays "explain merge sort";
                         userSays "explain quicksort algorithm";
                         userSays "explain quicksort algorithm"]
         = ["merge sort"; "quicksort algorithm"; "quicksort algorithm"]
      /\ find (fun topic =>
                 includes (lowerTrim "can we go back to the earlier one")
                          (firstWord topic))
              ["merge sort"; "quicksort algorithm"; "quicksort algorithm"]
         = None
      /\ secondMostRecentDistinct
           ["merge sort"; "quicksort algorithm"; "quicksort algorithm"]
         = Some "merge sort"
      /\ analyzeContext "can we go back to the earlier one"
           [userSays "explain merge sort";
            userSays "explain quicksort algorithm";
            userSays "explain quicksort algorithm"] None
         = mkContext (TString "quicksort algorithm") 0 true
      /\ analyzeContext "can we go back to the earlier one"
           [userSays "explain merge sort";
            userSays "explain quicksort algorithm";
            userSays "explain quicksort algorithm"] None
         <> mkContext (TString "merge sort") 0 true).
Proof.
  split.
  - repeat split; vm_compute; reflexivity.
  - repeat (split; [vm_compute; reflexivity|]).
    vm_compute. discriminate.
Qed.

(** C8, amended. A message with a back-reference phrase that the
    real-time and greeting rules let through, on a history whose user
    messages yield at least one non-empty topic, is classified as
    [{topic, 0, true}], where the topics are taken oldest first and
    [topic] is the first of them whose first word occurs in the
    lowercased, trimmed message; when there is none and the list has at
    least two entries, [topic] is the entry before the last, repeated
    topics counted. *)
Theorem returning_topic_choice (msg : string) (hist : list Message)
    (prev : option ConversationContext) :
  realTimeRule (lowerTrim msg) = false ->
  generalChatRule (lowerTrim msg) = false ->
  isReturningToPrevious (lowerTrim msg) = true ->
  previousTopics hist <> [] ->
  exists topic : Topic,
    analyzeContext msg hist prev = mkContext topic 0 true
    /\ (forall before t after,
           previousTopics hist = (before ++ t :: after)%list ->
           (forall u, In u before ->
                      includes (lowerTrim msg) (firstWord u) = false) ->
           includes (lowerTrim msg) (firstWord t) = true ->
           topic = TString t)
    /\ (forall before a b,
           previousTopics hist = (before ++ [a; b])%list ->
           (forall u, In u (previousTopics hist) ->
                      includes (lowerTrim msg) (firstWord u) = false) ->
           topic = TString a).
Proof.
  intros H1 H2 H3 H4.
  exists (relevantTopic (lowerTrim msg) (previousTopics hist)).
  split; [apply analyzeContext_returning; assumption|].
  split.
  - intros before t after E Hb Ht.
    assert (Tr : truthy t = true).
    { apply (previousTopics_truthy hist). rewrite E.
      apply in_or_app. right. left. reflexivity. }
    unfold relevantTopic. rewrite E.
    rewrite (find_first _ before after t Hb Ht), Tr. reflexivity.
  - intros before a b E Hnone.
    unfold relevantTopic. rewrite (find_all_false _ _ Hnone).
    rewrite E. apply topicAt_second_to_last.
Qed.

Lemma returning_topic_choice_witness :
  exists topic : Topic,
    analyzeContext "Back to sorting, please"
      [userSays "explain merge sort"; userSays "implement binary search";
       userSays "sorting algorithm stability"] (Some (mergeSort 2))
    = mkContext topic 0 true
    /\ topic = TString "sorting algorithm stability".
Proof.
  destruct (returning_topic_choice "Back to sorting, please"
              [userSays "explain merge sort";
               userSays "implement binary search";
               userSays "sorting algorithm stability"]
              (Some (mergeSort 2)))
    as (topic & E & Hfirst & _);
    try (vm_compute; (reflexivity || discriminate)).
  exists topic. split; [exact E|].
  apply (Hfirst ["merge sort"; "implement binary search"]
                "sorting algorithm stability" []).
  - vm_compute. reflexivity.
  - intros u [<-|[<-|[]]]; vm_compute; reflexivity.
  - vm_compute. reflexivity.
Defined.

(** ** Topic extraction *)

Lemma lowerChar_whiteSpace (c : ascii) :
  isWhiteSpace (lowerChar c) = isWhiteSpace c.
Proof. destruct c as [[] [] [] [] [] [] [] []]; reflexivity. Qed.

Lemma lowerChar_space (c : ascii) :
  Ascii.eqb " "%char (lowerChar c) = Ascii.eqb " "%char c.
Proof. destruct c as [[] [] [] [] [] [] [] []]; reflexivity. Qed.

Lemma space_is_whiteSpace (c : ascii) :
  Ascii.eqb " "%char c = true -> isWhiteSpace c = true.
Proof. intros H. apply Ascii.eqb_eq in H. subst c. reflexivity. Qed.

(** On a message whose white space is spaces only, splitting the
    lowercased text at spaces and at white space is the same. *)
Lemma split_lower_whiteSpace (msg : string) :
  whiteSpaceIsSpaces msg = true ->
  split (toLowerCase msg) = splitBy isWhiteSpace (toLowerCase msg).
Proof.
  unfold split. induction msg as [|c msg IH]; [reflexivity|].
  cbn [toLowerCase splitBy whiteSpaceIsSpaces].
  intros H. apply andb_true_iff in H. destruct H as [Hc Hrest].
  rewrite (IH Hrest), lowerChar_whiteSpace, lowerChar_space.
  destruct (Ascii.eqb " "%char c) eqn:E.
  - rewrite (space_is_whiteSpace c E). reflexivity.
  - rewrite orb_false_r in Hc. apply negb_true_iff in Hc.
    rewrite Hc. reflexivity.
Qed.

Lemma meaningful_In (words : list string) (w : string) :
  In w (meaningful words) ->
  In w words /\ ~ In w stopWords /\ (3 < String.length w)%nat.
Proof.
  unfold meaningful. intros H. apply filter_In in H.
  destruct H as [Hin H]. apply andb_true_iff in H. destruct H as [Hs Hl].
  split; [exact Hin|]. split.
  - intros Hstop. apply negb_true_iff in Hs.
    assert (T : arrayIncludes stopWords w = true).
    { unfold arrayIncludes. apply existsb_exists. exists w.
      split; [exact Hstop | apply String.eqb_refl]. }
    congruence.
  - apply Nat.ltb_lt. exact Hl.
Qed.

(** C6, as stated, fails: the message is split at spaces, so a tab does
    not separate words; the stop word "explain" then stays glued to the
    next word and the topic differs from the one obtained by splitting on
    white space. *)
Lemma extractTopic_tab_does_not_split :
  extractTopic ("explain" ++ String "009"%char "quicksort")
  = "explain" ++ String "009"%char "quicksort"
  /\ specExtractTopic ("explain" ++ String "009"%char "quicksort")
     = "quicksort"
  /\ extractTopic ("explain" ++ String "009"%char "quicksort")
     <> specExtractTopic ("explain" ++ String "009"%char "quicksort").
Proof.
  split; [vm_compute; reflexivity|].
  split; [vm_compute; reflexivity|].
  vm_compute. discriminate.
Qed.

(** C6, amended. Topic extraction lowercases the message, splits it at
    every space character, drops the stop words and the words of length
    at most 3, and joins the first three words that remain with single
    spaces; the result may be the empty string.  On messages whose only
    white space is the space character this is the extraction by
    splitting on white space.  Hence "how do I implement merge sort",
    with empty history and no previous context, is classified as
    [{implement merge sort, 0, true}]. *)
Theorem extractTopic_first_three_words :
  (forall msg : string,
      exists kept rest : list string,
        extractTopic msg = join " " kept
        /\ meaningful (split (toLowerCase msg)) = (kept ++ rest)%list
        /\ (List.length kept <= 3)%nat
        /\ (rest <> [] -> List.length kept = 3%nat)
        /\ (forall w, In w kept ->
                      In w (split (toLowerCase msg))
                      /\ ~ In w stopWords /\ (3 < String.length w)%nat))
  /\ (forall msg : string,
         whiteSpaceIsSpaces msg = true ->
         extractTopic msg = specExtractTopic msg)
  /\ analyzeContext "how to do it" [] None
     = mkContext (TString EmptyString) 0 true
  /\ analyzeContext "how do I implement merge sort" [] None
     = mkContext (TString "implement merge sort") 0 true.
Proof.
  split; [|split; [|split; vm_compute; reflexivity]].
  - intros msg.
    exists (firstn 3 (meaningful (split (toLowerCase msg)))),
           (skipn 3 (meaningful (split (toLowerCase msg)))).
    split; [reflexivity|].
    split; [symmetry; apply firstn_skipn|].
    split; [apply firstn_le_length|].
    split.
    + intros Hrest. apply firstn_length_le.
      destruct (Nat.le_gt_cases 3
                  (List.length (meaningful (split (toLowerCase msg)))))
        as [Hle|Hgt]; [exact Hle|].
      exfalso. apply Hrest. apply skipn_all2. lia.
    + intros w Hw. apply meaningful_In.
      rewrite <- (firstn_skipn 3 (meaningful (split (toLowerCase msg)))).
      apply in_or_app. left. exact Hw.
  - intros msg H. unfold extractTopic, specExtractTopic.
    rewrite (split_lower_whiteSpace msg H). reflexivity.
Qed.

Lemma extractTopic_first_three_words_witness :
  whiteSpaceIsSpaces "How do I implement merge sort" = true
  /\ extractTopic "How do I implement merge sort"
     = specExtractTopic "How do I implement merge sort".
Proof.
  split; [vm_compute; reflexivity|].
  apply (proj1 (proj2 extractTopic_first_three_words)
           "How do I implement merge sort").
  vm_compute. reflexivity.
Defined.

(** ** The prompt tiers *)

Lemma digit_mismatch (x c : ascii) :
  isDigit x = false -> isDigit c = true -> Ascii.eqb x c = false.
Proof.
  intros Hx Hc. destruct (Ascii.eqb x c) eqn:E; [|reflexivity].
  apply Ascii.eqb_eq in E. subst x. congruence.
Qed.

(** A pattern without digits that starts in [a] cannot run into a digit
    that follows [a]. *)
Lemma startsWith_before_digit (a rest p : string) (c : ascii) :
  noDigit p = true -> isDigit c = true ->
  startsWith (a ++ String c rest) p = startsWith a p.
Proof.
  intros Hp Hc. revert p Hp.
  induction a as [|y a IH]; intros [|x p] Hp; try reflexivity.
  - unfold noDigit in Hp. simpl in Hp. apply andb_true_iff in Hp.
    destruct Hp as [Hx _]. apply negb_true_iff in Hx.
    simpl. rewrite (digit_mismatch x c Hx Hc). reflexivity.
  - unfold noDigit in Hp. simpl in Hp. apply andb_true_iff in Hp.
    destruct Hp as [_ Hp].
    cbn [append startsWith]. rewrite (IH p Hp). reflexivity.
Qed.

Lemma includes_after_digits (d b p : string) (x : ascii) :
  isDigit x = false -> allChars isDigit d = true ->
  includes (d ++ b) (String x p) = includes b (String x p).
Proof.
  intros Hx. induction d as [|c d IH]; intros Hd; [reflexivity|].
  simpl in Hd. apply andb_true_iff in Hd. destruct Hd as [Hc Hd].
  cbn [append includes startsWith].
  rewrite (digit_mismatch x c Hx Hc). simpl. apply IH. exact Hd.
Qed.

(** Occurrences of a pattern without digits in a text cut by a number:
    they lie before the number or after it. *)
Lemma includes_around_digits (a d b p : string) :
  noDigit p = true -> p <> EmptyString ->
  allChars isDigit d = true -> d <> EmptyString ->
  includes (a ++ d ++ b) p = includes a p || includes b p.
Proof.
  intros Hp Hne Hd Hdne.
  destruct p as [|x p]; [exfalso; apply Hne; reflexivity|].
  destruct d as [|c d]; [exfalso; apply Hdne; reflexivity|].
  assert (Hx : isDigit x = false).
  { unfold noDigit in Hp. simpl in Hp. apply andb_true_iff in Hp.
    destruct Hp as [Hx _]. apply negb_true_iff in Hx. exact Hx. }
  assert (Hc : isDigit c = true).
  { simpl in Hd. apply andb_true_iff in Hd. apply Hd. }
  induction a as [|y a IH].
  - cbn [append]. change (String c (d ++ b)) with (String c d ++ b).
    rewrite (includes_after_digits _ _ _ _ Hx Hd). reflexivity.
  - change (String y a ++ String c d ++ b)
      with (String y (a ++ String c d ++ b)).
    cbn [includes]. rewrite IH.
    change (String y (a ++ String c d ++ b))
      with (String y a ++ String c (d ++ b)).
    rewrite (startsWith_before_digit (String y a) (d ++ b) _ c Hp Hc).
    rewrite orb_assoc. reflexivity.
Qed.

Lemma uint_digits (d : Decimal.uint) :
  allChars isDigit (NilEmpty.string_of_uint d) = true.
Proof. induction d; simpl; auto. Qed.

Lemma numberToString_digits (n : Z) :
  (0 <= n)%Z ->
  allChars isDigit (numberToString n) = true
  /\ numberToString n <> EmptyString.
Proof.
  intros Hn. unfold numberToString.
  destruct n as [|p|p]; [split; [reflexivity | discriminate]| |lia].
  unfold Z.to_int, NilZero.string_of_int, NilZero.string_of_uint.
  destruct (Pos.to_uint p) eqn:E;
    try (split; [exact (uint_digits _) | discriminate]).
  split; [reflexivity | discriminate].
Qed.

Lemma selectedTiers_around_digits (a d b : string) :
  allChars isDigit d = true -> d <> EmptyString ->
  selectedTiers (a ++ d ++ b)
  = filter (fun t => includes a (tierSentence t)
                     || includes b (tierSentence t)) allTiers.
Proof.
  intros Hd Hne. unfold selectedTiers. apply filter_ext.
  intros t. apply includes_around_digits; try assumption;
    destruct t; (reflexivity || discriminate).
Qed.

Lemma directedFlags_around_digits (a d b : string) :
  allChars isDigit d = true -> d <> EmptyString ->
  directedFlags (a ++ d ++ b)
  = ((if includes a hintDirective || includes b hintDirective
      then [(true, false)] else [])
     ++ (if includes a solutionDirective || includes b solutionDirective
         then [(false, true)] else []))%list.
Proof.
  intros Hd Hne. unfold directedFlags.
  rewrite !includes_around_digits; try assumption;
    (reflexivity || discriminate).
Qed.

(** From three attempts on, whatever the number printed in the first
    line, the guidance asks for the full solution only. *)
Lemma guidance_from_three (n : Z) :
  (3 <= n)%Z ->
  selectedTiers (guidance n) = [FullSolution]
  /\ directedFlags (guidance n) = [(false, true)].
Proof.
  intros Hn.
  destruct (numberToString_digits n) as [Hd Hne]; [lia|].
  unfold guidance.
  destruct (Z.eqb_spec n 0); [lia|].
  destruct (Z.eqb_spec n 1); [lia|].
  destruct (Z.eqb_spec n 2); [lia|].
  unfold template. cbn [join]. rewrite !append_assoc.
  rewrite (selectedTiers_around_digits _ _ _ Hd Hne).
  rewrite (directedFlags_around_digits _ _ _ Hd Hne).
  split; vm_compute; reflexivity.
Qed.

(** * Further properties of the classifier *)

Lemma lowerChar_idempotent (c : ascii) : lowerChar (lowerChar c) = lowerChar c.
Proof. destruct c as [[] [] [] [] [] [] [] []]; reflexivity. Qed.

Lemma toLowerCase_idempotent (s : string) :
  toLowerCase (toLowerCase s) = toLowerCase s.
Proof.
  induction s as [|c s IH]; [reflexivity|].
  cbn [toLowerCase]. rewrite lowerChar_idempotent, IH. reflexivity.
Qed.

Lemma toLowerCase_length (s : string) :
  String.length (toLowerCase s) = String.length s.
Proof. induction s as [|c s IH]; simpl; [reflexivity | rewrite IH; reflexivity]. Qed.

Lemma trimStart_whiteSpace (s : string) :
  allChars isWhiteSpace s = true -> trimStart s = EmptyString.
Proof.
  induction s as [|c s IH]; [reflexivity|].
  cbn [allChars trimStart]. intros H. apply andb_true_iff in H.
  destruct H as [Hc Hs]. rewrite Hc. apply IH. exact Hs.
Qed.

Lemma lowerTrim_whiteSpace (msg : string) :
  allChars isWhiteSpace msg = true -> lowerTrim msg = EmptyString.
Proof.
  intros H. unfold lowerTrim, trim.
  rewrite trimStart_whiteSpace; [reflexivity|].
  induction msg as [|c msg IH]; [reflexivity|].
  cbn [allChars toLowerCase] in *. apply andb_true_iff in H.
  destruct H as [Hc Hs]. rewrite lowerChar_whiteSpace, Hc. apply IH. exact Hs.
Qed.

(** ** New learning questions *)

(** X1. A message with a learning keyword, without weather or news
    marker and without back-reference phrase, starts a topic: the result
    is [{extractTopic(message), 0, true}] whatever the history and the
    previous context, also when the message opens with a greeting. *)
Theorem new_question_resets (msg : string) (hist : list Message)
    (prev : option ConversationContext) :
  realTimeRule (lowerTrim msg) = false ->
  isNewLearningQuestion (lowerTrim msg) = true ->
  isReturningToPrevious (lowerTrim msg) = false ->
  analyzeContext msg hist prev = mkContext (TString (extractTopic msg)) 0 true.
Proof.
  unfold realTimeRule. intros H1 H2 H3.
  unfold analyzeContext. cbv zeta. rewrite H1, H2, H3.
  rewrite andb_false_r. reflexivity.
Qed.

Lemma new_question_resets_witness :
  isGeneralChat (lowerTrim "Hi there, how do I reverse a linked list?") = true
  /\ analyzeContext "Hi there, how do I reverse a linked list?" []
       (Some (mergeSort 2))
     = mkContext (TString "there, reverse linked") 0 true.
Proof.
  split; [vm_compute; reflexivity|].
  apply (new_question_resets "Hi there, how do I reverse a linked list?" []
           (Some (mergeSort 2))); vm_compute; reflexivity.
Defined.

(** ** Attempts in learning mode *)

(** X2. In learning mode with a topic, a message that reaches the later
    rules and is neither a follow-up nor a solution request counts as an
    attempt exactly when it holds an attempt phrase or is longer than ten
    characters; otherwise the context is returned as it is. *)
Theorem attempt_or_unchanged (msg : string) (hist : list Message)
    (pc : ConversationContext) :
  earlierRulesSkip (lowerTrim msg) hist = true ->
  isFollowUp (lowerTrim msg) = false ->
  isAskingForSolution (lowerTrim msg) = false ->
  isLearningMode pc = true ->
  topicTruthy (currentTopic pc) = true ->
  analyzeContext msg hist (Some pc)
  = if isGenuineAttempt (lowerTrim msg) || (10 <? String.length msg)%nat
    then mkContext (currentTopic pc) (attemptCount pc + 1) true
    else pc.
Proof.
  intros Hskip Hfollow Hsol Hlearn Htopic.
  rewrite (analyzeContext_later_rules _ _ _ Hskip). cbv zeta.
  rewrite Hfollow, Hsol, Hlearn, Htopic. simpl.
  destruct (isGenuineAttempt (lowerTrim msg)); simpl; [reflexivity|].
  destruct (10 <? String.length msg)%nat; reflexivity.
Qed.

Lemma attempt_or_unchanged_witness :
  analyzeContext "divide and conquer" [] (Some (mergeSort 1)) = mergeSort 2
  /\ analyzeContext "recursion?" [] (Some (mergeSort 1)) = mergeSort 1.
Proof.
  split.
  - rewrite (attempt_or_unchanged "divide and conquer" [] (mergeSort 1));
      vm_compute; reflexivity.
  - rewrite (attempt_or_unchanged "recursion?" [] (mergeSort 1));
      vm_compute; reflexivity.
Defined.

(** X3. From chat mode, that is without previous context or with one
    that is not in learning mode and has no topic, learning mode is
    entered only by a new learning question or by a return to a topic of
    the history, and only when neither the real-time rule nor the
    greeting rule applies. *)
Theorem learning_mode_entry (msg : string) (hist : list Message)
    (prev : option ConversationContext) :
  (forall pc, prev = Some pc ->
              isLearningMode pc = false /\ currentTopic pc = TNull) ->
  isLearningMode (analyzeContext msg hist prev)
  = negb (realTimeRule (lowerTrim msg))
    && negb (generalChatRule (lowerTrim msg))
    && (newQuestionRule (lowerTrim msg) || returningRule (lowerTrim msg) hist).
Proof.
  intros Hprev.
  unfold realTimeRule, generalChatRule, newQuestionRule, returningRule.
  unfold analyzeContext. cbv zeta.
  destruct (isWeatherRequest (lowerTrim msg) || isNewsRequest (lowerTrim msg));
    [reflexivity|].
  destruct (isGeneralChat (lowerTrim msg)
            && negb (isNewLearningQuestion (lowerTrim msg))); [reflexivity|].
  destruct (isNewLearningQuestion (lowerTrim msg)
            && negb (isReturningToPrevious (lowerTrim msg))); [reflexivity|].
  destruct (isReturningToPrevious (lowerTrim msg)
            && (0 <? List.length hist)%nat
            && (0 <? List.length (previousTopics hist))%nat); [reflexivity|].
  destruct prev as [pc|]; [|reflexivity].
  destruct (Hprev pc eq_refl) as [Hl Ht]. rewrite Hl, Ht. simpl.
  rewrite !andb_false_r. simpl. exact Hl.
Qed.

Lemma learning_mode_entry_witness :
  isLearningMode
    (analyzeContext "I tried recursion but got stuck" [] (Some chatContext))
  = false.
Proof.
  rewrite (learning_mode_entry "I tried recursion but got stuck" []
             (Some chatContext)).
  - vm_compute. reflexivity.
  - intros pc E. injection E as <-. split; reflexivity.
Defined.

(** ** The part the history plays *)

Lemma previousTopics_user_only (hist : list Message) :
  previousTopics (filter isUserMessage hist) = previousTopics hist.
Proof.
  unfold previousTopics, isUserMessage.
  induction hist as [|m hist IH]; [reflexivity|].
  cbn [filter]. destruct (String.eqb (role m) "user") eqn:E.
  - cbn [filter map]. rewrite E. cbn [map filter].
    destruct (0 <? String.length (extractTopic (text m)))%nat;
      rewrite IH; reflexivity.
  - exact IH.
Qed.

Lemma returning_guard_topics (b : bool) (hist : list Message) :
  b && (0 <? List.length hist)%nat
  && (0 <? List.length (previousTopics hist))%nat
  = b && (0 <? List.length (previousTopics hist))%nat.
Proof.
  destruct (previousTopics hist) as [|t ts] eqn:E.
  - simpl. rewrite !andb_false_r. reflexivity.
  - assert (H : previousTopics hist <> []) by (rewrite E; discriminate).
    rewrite (previousTopics_history hist H), andb_true_r. reflexivity.
Qed.

(** X4. The history counts only through the topics of its user
    messages: the entries of any other role can be dropped without
    changing the result, and a message without back-reference phrase is
    classified as with an empty history. *)
Theorem history_only_user_topics (msg : string) (hist : list Message)
    (prev : option ConversationContext) :
  analyzeContext msg (filter isUserMessage hist) prev
  = analyzeContext msg hist prev
  /\ (isReturningToPrevious (lowerTrim msg) = false ->
      analyzeContext msg hist prev = analyzeContext msg [] prev).
Proof.
  split.
  - unfold analyzeContext. cbv zeta.
    rewrite !returning_guard_topics, previousTopics_user_only. reflexivity.
  - intros H. unfold analyzeContext. cbv zeta. rewrite H. reflexivity.
Qed.

Lemma history_only_user_topics_witness :
  analyzeContext "I think it is O(n log n)"
    [userSays "explain merge sort"; mkMessage "assistant" "What is a merge?"]
    (Some (mergeSort 1))
  = analyzeContext "I think it is O(n log n)" [] (Some (mergeSort 1)).
Proof.
  apply (proj2 (history_only_user_topics "I think it is O(n log n)"
                  [userSays "explain merge sort";
                   mkMessage "assistant" "What is a merge?"]
                  (Some (mergeSort 1)))).
  vm_compute. reflexivity.
Defined.

(** ** The attempt counter *)

Lemma attemptCount_step (msg : string) (hist : list Message)
    (prev : option ConversationContext) :
  let n := match prev with Some pc => attemptCount pc | None => 0%Z end in
  let n' := attemptCount (analyzeContext msg hist prev) in
  n' = 0%Z \/ n' = n \/ n' = (n + 1)%Z \/ n' = Z.max n 3.
Proof.
  cbv zeta. unfold analyzeContext. cbv zeta.
  repeat match goal with
         | |- context [if ?b then _ else _] => destruct b
         end; try (left; reflexivity).
  destruct prev as [pc|]; [|left; reflexivity].
  repeat match goal with
         | |- context [if ?b then _ else _] => destruct b
         end; simpl; auto.
Qed.

(** X5. A turn leaves the attempt counter at 0, unchanged, one higher,
    or at the maximum of its value and 3; on the first turn it is 0; and
    in a session that starts without a previous context it is never
    negative. *)
Theorem attempt_counter_steps :
  (forall (msg : string) (hist : list Message) (pc : ConversationContext),
      let n' := attemptCount (analyzeContext msg hist (Some pc)) in
      n' = 0%Z \/ n' = attemptCount pc \/ n' = (attemptCount pc + 1)%Z
      \/ n' = Z.max (attemptCount pc) 3)
  /\ (forall (msg : string) (hist : list Message),
         attemptCount (analyzeContext msg hist None) = 0%Z)
  /\ (forall ctx, sessionContext ctx -> (0 <= attemptCount ctx)%Z).
Proof.
  split; [|split].
  - intros msg hist pc. exact (attemptCount_step msg hist (Some pc)).
  - intros msg hist. unfold analyzeContext. cbv zeta.
    repeat match goal with
           | |- context [if ?b then _ else _] => destruct b
           end; reflexivity.
  - intros ctx Hs. induction Hs as [msg hist | msg hist pc Hpc IH].
    + destruct (attemptCount_step msg hist None) as [H|[H|[H|H]]];
        cbv zeta in H; lia.
    + destruct (attemptCount_step msg hist (Some pc)) as [H|[H|[H|H]]];
        cbv zeta in H; lia.
Qed.

Lemma attempt_counter_steps_witness :
  (0 <= attemptCount
          (analyzeContext "I think we split the array" []
             (Some (analyzeContext "how do I implement merge sort" [] None))))%Z.
Proof.
  apply (proj2 (proj2 attempt_counter_steps)).
  apply nextTurn. apply firstTurn.
Defined.

(** ** Case and blank messages *)

Lemma extractTopic_lower (msg : string) :
  extractTopic (toLowerCase msg) = extractTopic msg.
Proof. unfold extractTopic. rewrite toLowerCase_idempotent. reflexivity. Qed.

(** X6. The classifier ignores the case of the message: a message and
    its lowercase form are classified alike. *)
Theorem classification_ignores_case (msg : string) (hist : list Message)
    (prev : option ConversationContext) :
  analyzeContext (toLowerCase msg) hist prev = analyzeContext msg hist prev.
Proof.
  unfold analyzeContext, lowerTrim.
  rewrite toLowerCase_idempotent, extractTopic_lower, toLowerCase_length.
  reflexivity.
Qed.

(** X7. A message of white space only holds no phrase at all: without
    previous context it gives the chat context, and with one it returns
    it unchanged, except that in learning mode with a topic a blank
    message longer than ten characters is counted as an attempt. *)
Theorem blank_message (msg : string) (hist : list Message)
    (prev : option ConversationContext) :
  allChars isWhiteSpace msg = true ->
  analyzeContext msg hist prev
  = match prev with
    | Some pc =>
        if isLearningMode pc && topicTruthy (currentTopic pc)
           && (10 <? String.length msg)%nat
        then mkContext (currentTopic pc) (attemptCount pc + 1) true
        else pc
    | None => mkContext TNull 0 false
    end.
Proof.
  intros H. unfold analyzeContext. cbv zeta.
  rewrite (lowerTrim_whiteSpace msg H).
  change (isWeatherRequest EmptyString) with false.
  change (isNewsRequest EmptyString) with false.
  change (isGeneralChat EmptyString) with false.
  change (isNewLearningQuestion EmptyString) with false.
  change (isReturningToPrevious EmptyString) with false.
  change (isFollowUp EmptyString) with false.
  change (isAskingForSolution EmptyString) with false.
  change (isGenuineAttempt EmptyString) with false.
  cbn [orb andb negb].
  destruct prev as [pc|]; [|reflexivity].
  rewrite !andb_true_r. reflexivity.
Qed.

Lemma blank_message_witness :
  analyzeContext "            " [] (Some (mergeSort 0)) = mergeSort 1
  /\ analyzeContext "   " [] (Some (mergeSort 0)) = mergeSort 0.
Proof.
  split.
  - rewrite (blank_message "            " [] (Some (mergeSort 0)));
      vm_compute; reflexivity.
  - rewrite (blank_message "   " [] (Some (mergeSort 0)));
      vm_compute; reflexivity.
Defined.

(** ** The shape of a topic *)

Lemma allChars_app (q : ascii -> bool) (a b : string) :
  allChars q (a ++ b) = allChars q a && allChars q b.
Proof.
  induction a as [|c a IH]; [reflexivity|].
  simpl. rewrite IH, andb_assoc. reflexivity.
Qed.

Lemma splitBy_not_nil (sep : ascii -> bool) (s : string) : splitBy sep s <> [].
Proof.
  induction s as [|c s IH]; simpl; [discriminate|].
  destruct (sep c); [discriminate|].
  destruct (splitBy sep s); discriminate.
Qed.

(** The pieces of a split hold no separator, and keep every property
    that all characters of the string have. *)
Lemma splitBy_pieces (sep q : ascii -> bool) (s : string) :
  allChars q s = true ->
  forall w, In w (splitBy sep s) ->
            allChars q w = true /\ allChars (fun c => negb (sep c)) w = true.
Proof.
  induction s as [|c s IH]; cbn [allChars splitBy].
  - intros _ w [<-|[]]. split; reflexivity.
  - intros H. apply andb_true_iff in H. destruct H as [Hc Hs].
    specialize (IH Hs). destruct (sep c) eqn:E.
    + intros w [<-|Hw]; [split; reflexivity | apply IH; exact Hw].
    + destruct (splitBy sep s) as [|w0 ws].
      * intros w [<-|[]]. simpl. rewrite Hc, E. split; reflexivity.
      * intros w [<-|Hw].
        -- destruct (IH w0 (or_introl eq_refl)) as [H1 H2].
           simpl. rewrite Hc, E, H1, H2. split; reflexivity.
        -- apply IH. right. exact Hw.
Qed.

Lemma splitBy_no_separator (sep : ascii -> bool) (w : string) :
  allChars (fun c => negb (sep c)) w = true -> splitBy sep w = [w].
Proof.
  induction w as [|c w IH]; [reflexivity|].
  cbn [allChars splitBy]. intros H. apply andb_true_iff in H.
  destruct H as [Hc Hw]. apply negb_true_iff in Hc.
  rewrite Hc, (IH Hw). reflexivity.
Qed.

Lemma splitBy_first_piece (sep : ascii -> bool) (w rest : string) (c : ascii) :
  allChars (fun c => negb (sep c)) w = true -> sep c = true ->
  splitBy sep (w ++ String c rest) = w :: splitBy sep rest.
Proof.
  intros Hw Hc. induction w as [|x w IH].
  - simpl. rewrite Hc. reflexivity.
  - cbn [allChars] in Hw. apply andb_true_iff in Hw. destruct Hw as [Hx Hw].
    apply negb_true_iff in Hx.
    cbn [append splitBy]. rewrite Hx, (IH Hw). reflexivity.
Qed.

(** [split] undoes [join] on words without spaces. *)
Lemma split_join (ws : list string) :
  ws <> [] ->
  (forall w, In w ws -> allChars notSpace w = true) ->
  split (join " " ws) = ws.
Proof.
  unfold split. induction ws as [|w ws IH]; [intros H; exfalso; apply H; reflexivity|].
  intros _ Hall. destruct ws as [|w2 ws].
  - apply splitBy_no_separator. apply (Hall w). left. reflexivity.
  - change (join " " (w :: w2 :: ws))
      with (w ++ String " "%char (join " " (w2 :: ws))).
    rewrite splitBy_first_piece.
    + rewrite IH; [reflexivity | discriminate|].
      intros v Hv. apply Hall. right. exact Hv.
    + apply (Hall w). left. reflexivity.
    + reflexivity.
Qed.

Lemma toLowerCase_app (a b : string) :
  toLowerCase (a ++ b) = toLowerCase a ++ toLowerCase b.
Proof.
  induction a as [|c a IH]; [reflexivity|].
  simpl. rewrite IH. reflexivity.
Qed.

Lemma toLowerCase_fixed (s : string) :
  allChars lowerFixed s = true -> toLowerCase s = s.
Proof.
  induction s as [|c s IH]; [reflexivity|].
  cbn [allChars toLowerCase]. intros H. apply andb_true_iff in H.
  destruct H as [Hc Hs]. apply Ascii.eqb_eq in Hc.
  rewrite Hc, (IH Hs). reflexivity.
Qed.

Lemma toLowerCase_is_fixed (s : string) :
  allChars lowerFixed (toLowerCase s) = true.
Proof.
  induction s as [|c s IH]; [reflexivity|].
  cbn [toLowerCase allChars]. rewrite IH, andb_true_r.
  unfold lowerFixed. rewrite lowerChar_idempotent. apply Ascii.eqb_refl.
Qed.

Lemma join_allChars (q : ascii -> bool) (ws : list string) :
  q " "%char = true ->
  (forall w, In w ws -> allChars q w = true) ->
  allChars q (join " " ws) = true.
Proof.
  intros Hq. induction ws as [|w ws IH]; [reflexivity|].
  intros Hall. destruct ws as [|w2 ws].
  - apply (Hall w). left. reflexivity.
  - change (join " " (w :: w2 :: ws))
      with (w ++ String " "%char (join " " (w2 :: ws))).
    rewrite allChars_app. cbn [allChars].
    rewrite (Hall w (or_introl eq_refl)), Hq, IH; [reflexivity|].
    intros v Hv. apply Hall. right. exact Hv.
Qed.

Lemma filter_all {A : Type} (f : A -> bool) (l : list A) :
  (forall x, In x l -> f x = true) -> filter f l = l.
Proof.
  induction l as [|x l IH]; [reflexivity|].
  intros H. simpl. rewrite (H x (or_introl eq_refl)), IH; [reflexivity|].
  intros y Hy. apply H. right. exact Hy.
Qed.

(** The words kept by [extractTopic]. *)
Lemma kept_words (msg : string) (w : string) :
  In w (firstn 3 (meaningful (split (toLowerCase msg)))) ->
  allChars lowerFixed w = true /\ allChars notSpace w = true
  /\ negb (arrayIncludes stopWords w) && (3 <? String.length w)%nat = true.
Proof.
  intros H.
  assert (Hm : In w (meaningful (split (toLowerCase msg)))).
  { rewrite <- (firstn_skipn 3 (meaningful (split (toLowerCase msg)))).
    apply in_or_app. left. exact H. }
  unfold meaningful in Hm. apply filter_In in Hm. destruct Hm as [Hs Hf].
  destruct (splitBy_pieces isSpace lowerFixed (toLowerCase msg)
              (toLowerCase_is_fixed msg) w Hs) as [H1 H2].
  repeat split; assumption.
Qed.

(** X8. A topic is made of at most three lowercase words without
    spaces, joined by single spaces: splitting a non-empty topic at
    spaces gives back exactly the words it was built from, the topic is
    its own lowercase form, and the topic of a topic is the topic
    itself. *)
Theorem extractTopic_stable (msg : string) :
  (extractTopic msg <> EmptyString ->
   split (extractTopic msg)
   = firstn 3 (meaningful (split (toLowerCase msg))))
  /\ toLowerCase (extractTopic msg) = extractTopic msg
  /\ extractTopic (extractTopic msg) = extractTopic msg.
Proof.
  assert (Hsplit : extractTopic msg <> EmptyString ->
                   split (extractTopic msg)
                   = firstn 3 (meaningful (split (toLowerCase msg)))).
  { unfold extractTopic at 1 2. cbv zeta. intros Hne. apply split_join.
    - intros E. rewrite E in Hne. apply Hne. reflexivity.
    - intros w Hw. apply (kept_words msg w Hw). }
  assert (Hlow : toLowerCase (extractTopic msg) = extractTopic msg).
  { apply toLowerCase_fixed. unfold extractTopic. cbv zeta.
    apply join_allChars; [reflexivity|].
    intros w Hw. apply (kept_words msg w Hw). }
  split; [exact Hsplit|]. split; [exact Hlow|].
  destruct (string_dec (extractTopic msg) EmptyString) as [E|Hne].
  - rewrite E. reflexivity.
  - unfold extractTopic at 1. cbv zeta. rewrite Hlow, (Hsplit Hne).
    unfold meaningful at 1. rewrite filter_all.
    + rewrite firstn_firstn. reflexivity.
    + intros w Hw. apply (kept_words msg w Hw).
Qed.

Lemma extractTopic_stable_witness :
  split (extractTopic "How do I implement merge sort in place?")
  = ["implement"; "merge"; "sort"].
Proof.
  rewrite (proj1 (extractTopic_stable
                    "How do I implement merge sort in place?"));
    vm_compute; [reflexivity | discriminate].
Defined.

(** ** When the back-reference rule returns no topic *)

Lemma relevantTopic_cases (m : string) (topics : list string) :
  topics <> [] ->
  (forall t, In t topics -> truthy t = true) ->
  (relevantTopic m topics = TUndefined
   /\ exists t, topics = [t] /\ includes m (firstWord t) = false)
  \/ (exists t, In t topics /\ relevantTopic m topics = TString t).
Proof.
  intros Hne Htruthy. unfold relevantTopic. cbv zeta.
  destruct (find (fun topic => includes m (firstWord topic)) topics)
    as [t|] eqn:F.
  - apply find_some in F. destruct F as [Hin _].
    right. exists t. rewrite (Htruthy t Hin). split; [exact Hin | reflexivity].
  - destruct topics as [|a [|b rest]]; [exfalso; apply Hne; reflexivity| |].
    + left. split; [reflexivity|]. exists a. split; [reflexivity|].
      apply (find_none _ _ F a). left. reflexivity.
    + right. unfold topicAt.
      replace (Z.of_nat (List.length (a :: b :: rest)) - 2)%Z
        with (Z.of_nat (List.length rest)) by (simpl List.length; lia).
      destruct (Z.of_nat (List.length rest) <? 0)%Z eqn:E;
        [apply Z.ltb_lt in E; lia|].
      rewrite Nat2Z.id.
      destruct (nth_error (a :: b :: rest) (List.length rest)) as [x|] eqn:N.
      * exists x. split; [exact (nth_error_In _ _ N) | reflexivity].
      * apply nth_error_None in N. simpl in N. lia.
Qed.

(** X9. When the back-reference rule fires, the topic it returns is
    [undefined] exactly when the history yields a single topic whose
    first word does not occur in the message; in every other case it is
    one of the non-empty topics extracted from the user's messages. *)
Theorem returning_topic_undefined_iff (msg : string) (hist : list Message)
    (prev : option ConversationContext) :
  realTimeRule (lowerTrim msg) = false ->
  generalChatRule (lowerTrim msg) = false ->
  isReturningToPrevious (lowerTrim msg) = true ->
  previousTopics hist <> [] ->
  (currentTopic (analyzeContext msg hist prev) = TUndefined
   <-> exists t, previousTopics hist = [t]
                 /\ includes (lowerTrim msg) (firstWord t) = false)
  /\ (currentTopic (analyzeContext msg hist prev) = TUndefined
      \/ exists t, In t (previousTopics hist) /\ t <> EmptyString
                   /\ currentTopic (analyzeContext msg hist prev) = TString t).
Proof.
  intros H1 H2 H3 H4.
  rewrite (analyzeContext_returning msg hist prev H1 H2 H3 H4).
  cbn [currentTopic].
  destruct (relevantTopic_cases (lowerTrim msg) (previousTopics hist) H4
              (previousTopics_truthy hist))
    as [[U Hone]|(t & Hin & E)].
  - split; [split; [intros _; exact Hone | intros _; exact U]|].
    left. exact U.
  - split.
    + split; [rewrite E; discriminate|].
      intros (t' & Et & Hinc). rewrite Et.
      unfold relevantTopic. cbn [find]. rewrite Hinc. reflexivity.
    + right. exists t. split; [exact Hin|]. split; [|exact E].
      intros ->. apply (previousTopics_truthy hist) in Hin. discriminate Hin.
Qed.

Lemma returning_topic_undefined_iff_witness :
  currentTopic
    (analyzeContext "can we go back to that"
       [userSays "explain merge sort"; userSays "explain binary search"]
       None)
  <> TUndefined.
Proof.
  pose proof (returning_topic_undefined_iff "can we go back to that"
                [userSays "explain merge sort";
                 userSays "explain binary search"] None
                ltac:(vm_compute; reflexivity) ltac:(vm_compute; reflexivity)
                ltac:(vm_compute; reflexivity) ltac:(vm_compute; discriminate))
    as [[Hu _] _].
  intros U. destruct (Hu U) as (t & E & _).
  vm_compute in E. discriminate E.
Defined.

(** * Real-time data detection *)

Lemma startsWith_white (w p : string) :
  allChars isWhiteSpace w = true -> endsSolid p = true ->
  startsWith w p = false.
Proof.
  revert p. induction w as [|c w IH]; intros [|x p] Hw Hp;
    try discriminate Hp; [reflexivity|].
  cbn [allChars] in Hw. apply andb_true_iff in Hw. destruct Hw as [Hc Hw].
  cbn [startsWith]. destruct p as [|y p].
  - cbn [endsSolid] in Hp. apply negb_true_iff in Hp.
    destruct (Ascii.eqb x c) eqn:E; [|reflexivity].
    apply Ascii.eqb_eq in E. subst x. congruence.
  - rewrite (IH (String y p) Hw Hp). apply andb_false_r.
Qed.

Lemma startsWith_empty (s : string) : startsWith s EmptyString = true.
Proof. destruct s; reflexivity. Qed.

Lemma startsWith_app_white (a w p : string) :
  allChars isWhiteSpace w = true -> endsSolid p = true ->
  startsWith (a ++ w) p = startsWith a p.
Proof.
  intros Hw. revert p. induction a as [|c a IH]; intros [|x p] Hp;
    try discriminate Hp.
  - cbn [append]. rewrite (startsWith_white w (String x p) Hw Hp). reflexivity.
  - cbn [append startsWith]. destruct p as [|y p].
    + rewrite !startsWith_empty. reflexivity.
    + rewrite (IH (String y p) Hp). reflexivity.
Qed.

Lemma includes_white (w p : string) :
  allChars isWhiteSpace w = true -> endsSolid p = true ->
  includes w p = false.
Proof.
  intros Hw Hp. induction w as [|c w IH]; rewrite includes_unfold.
  - destruct p; [discriminate Hp | reflexivity].
  - rewrite (startsWith_white _ p Hw Hp).
    cbn [allChars] in Hw. apply andb_true_iff in Hw.
    apply IH. apply Hw.
Qed.

Lemma includes_app_white (a w p : string) :
  allChars isWhiteSpace w = true -> endsSolid p = true ->
  includes (a ++ w) p = includes a p.
Proof.
  intros Hw Hp. induction a as [|c a IH].
  - cbn [append]. rewrite (includes_white w p Hw Hp).
    destruct p; [discriminate Hp | reflexivity].
  - rewrite (includes_unfold (String c a ++ w)), (includes_unfold (String c a)).
    rewrite (startsWith_app_white _ w p Hw Hp).
    cbn [append]. rewrite IH. reflexivity.
Qed.

Lemma trimEnd_split (s : string) :
  exists w, allChars isWhiteSpace w = true /\ s = trimEnd s ++ w.
Proof.
  induction s as [|c s (w & Hw & E)].
  - exists EmptyString. split; reflexivity.
  - cbn [trimEnd]. destruct (trimEnd s) as [|d t].
    + destruct (isWhiteSpace c) eqn:Hc.
      * exists (String c w). cbn [allChars append]. rewrite Hc, Hw.
        split; [reflexivity|]. rewrite E at 1. reflexivity.
      * exists w. split; [exact Hw|]. rewrite E at 1. reflexivity.
    + exists w. split; [exact Hw|]. rewrite E at 1. reflexivity.
Qed.

Lemma includes_trimStart (s p : string) :
  startsSolid p = true -> includes (trimStart s) p = includes s p.
Proof.
  intros Hp. induction s as [|c s IH]; [reflexivity|].
  cbn [trimStart]. destruct (isWhiteSpace c) eqn:Hc; [|reflexivity].
  rewrite IH, (includes_unfold (String c s)).
  destruct p as [|x p]; [discriminate Hp|].
  cbn [startsSolid] in Hp. apply negb_true_iff in Hp.
  cbn [startsWith].
  destruct (Ascii.eqb x c) eqn:E; [|reflexivity].
  apply Ascii.eqb_eq in E. subst x. congruence.
Qed.

(** Trimming does not change whether a phrase occurs, when the phrase
    neither starts nor ends with white space. *)
Lemma includes_trim (s p : string) :
  startsSolid p = true -> endsSolid p = true ->
  includes (trim s) p = includes s p.
Proof.
  intros Hs He. unfold trim.
  destruct (trimEnd_split (trimStart s)) as (w & Hw & E).
  rewrite <- (includes_trimStart s p Hs).
  rewrite E at 2. rewrite (includes_app_white _ w p Hw He). reflexivity.
Qed.

Lemma includes_sub (s p q : string) :
  includes s p = true -> includes p q = true -> includes s q = true.
Proof.
  intros Hp Hq. apply includes_spec in Hq. apply includes_spec in Hp.
  destruct Hq as (b1 & a1 & E1). destruct Hp as (b2 & a2 & E2).
  apply includes_spec. exists (b2 ++ b1), (a1 ++ a2).
  rewrite E2, E1, !append_assoc. reflexivity.
Qed.

(** X10. [chat] looks for the weather phrases in the untrimmed
    lowercase message and the classifier in the trimmed one; both find
    the same.  So whenever [chat] asks for weather data the context is
    the chat context and the system prompt is the base prompt, without
    guidance tier. *)
Theorem weather_detection_agrees (msg : string) (hist : list Message)
    (prev : option ConversationContext) :
  chatWeatherDetected msg = isWeatherRequest (lowerTrim msg)
  /\ (chatWeatherDetected msg = true ->
      analyzeContext msg hist prev = mkContext TNull 0 false
      /\ systemPrompt (analyzeContext msg hist prev) = basePrompt).
Proof.
  assert (E : chatWeatherDetected msg = isWeatherRequest (lowerTrim msg)).
  { unfold chatWeatherDetected, isWeatherRequest, someIncluded, lowerTrim.
    unfold chatWeatherPatterns, weatherPatterns. cbn [existsb].
    rewrite !includes_trim by reflexivity. reflexivity. }
  split; [exact E|]. intros H. rewrite E in H.
  assert (R : analyzeContext msg hist prev = mkContext TNull 0 false).
  { unfold analyzeContext. cbv zeta. rewrite H. reflexivity. }
  rewrite R. split; [reflexivity|].
  unfold systemPrompt. cbn [isLearningMode].
  generalize basePrompt. intros s.
  induction s as [|c s IH]; simpl; [reflexivity | rewrite IH; reflexivity].
Qed.

Lemma weather_detection_agrees_witness :
  chatWeatherDetected "  Weather in Pune?  " = true
  /\ systemPrompt (analyzeContext "  Weather in Pune?  " [] (Some (mergeSort 2)))
     = basePrompt.
Proof.
  split; [vm_compute; reflexivity|].
  apply (proj2 (weather_detection_agrees "  Weather in Pune?  " []
                  (Some (mergeSort 2)))).
  vm_compute. reflexivity.
Defined.

(** X11. The news phrases of the classifier and of [chat] differ, but
    every message that the classifier takes for a news request and that
    does not hold "weather" also sets off the news lookup of [chat],
    unless "headlines" is what it holds. *)
Theorem classifier_news_is_chat_news (msg : string) :
  isNewsRequest (lowerTrim msg) = true ->
  includes (toLowerCase msg) "weather" = false ->
  chatNewsDetected msg = true \/ includes (toLowerCase msg) "headlines" = true.
Proof.
  intros H Hw.
  unfold isNewsRequest, someIncluded, newsPatterns, lowerTrim in H.
  cbn [existsb] in H. rewrite !includes_trim in H by reflexivity.
  unfold chatNewsDetected, someIncluded, chatNewsPatterns.
  rewrite Hw. cbn [existsb negb]. rewrite andb_true_r.
  rewrite !orb_true_iff.
  repeat (apply orb_true_iff in H; destruct H as [H|H]);
    try discriminate H;
    try (right; exact H);
    left;
    first [ pose proof (includes_sub _ _ "news" H eq_refl) as N
          | pose proof (includes_sub _ _ "current events" H eq_refl) as N
          | pose proof (includes_sub _ _ "happening" H eq_refl) as N ];
    tauto.
Qed.

Lemma classifier_news_is_chat_news_witness :
  chatNewsDetected "What's happening in tech?" = true
  \/ includes (toLowerCase "What's happening in tech?") "headlines" = true.
Proof.
  apply (classifier_news_is_chat_news "What's happening in tech?");
    vm_compute; reflexivity.
Defined.

(** ** The query of a news request *)

Lemma trimStart_starts (s : string) :
  trimStart s = EmptyString \/ startsSolid (trimStart s) = true.
Proof.
  induction s as [|c s IH]; [left; reflexivity|].
  cbn [trimStart]. destruct (isWhiteSpace c) eqn:Hc; [exact IH|].
  right. cbn [startsSolid]. rewrite Hc. reflexivity.
Qed.

Lemma trimEnd_ends (s : string) :
  trimEnd s = EmptyString \/ endsSolid (trimEnd s) = true.
Proof.
  induction s as [|c s IH]; [left; reflexivity|].
  cbn [trimEnd]. destruct (trimEnd s) as [|d t].
  - destruct (isWhiteSpace c) eqn:Hc; [left; reflexivity|].
    right. cbn [endsSolid]. rewrite Hc. reflexivity.
  - right. destruct IH as [IH|IH]; [discriminate IH | exact IH].
Qed.

Lemma trimEnd_keeps_start (s : string) :
  startsSolid s = true -> startsSolid (trimEnd s) = true.
Proof.
  destruct s as [|c s]; [discriminate|].
  cbn [startsSolid trimEnd]. intros Hc.
  destruct (trimEnd s); [|exact Hc].
  apply negb_true_iff in Hc. rewrite Hc. cbn [startsSolid].
  rewrite Hc. reflexivity.
Qed.

(** A trimmed string is empty, or starts and ends with a character that
    is no white space. *)
Lemma trim_solid (s : string) :
  trim s = EmptyString
  \/ (startsSolid (trim s) = true /\ endsSolid (trim s) = true).
Proof.
  unfold trim. destruct (trimStart_starts s) as [E|Hs].
  - left. rewrite E. reflexivity.
  - right. split; [apply trimEnd_keeps_start; exact Hs|].
    destruct (trimEnd_ends (trimStart s)) as [E|He]; [|exact He].
    apply trimEnd_keeps_start in Hs. rewrite E in Hs. discriminate Hs.
Qed.

Lemma trimStart_length (s : string) :
  (String.length (trimStart s) <= String.length s)%nat.
Proof.
  induction s as [|c s IH]; [apply Nat.le_refl|].
  cbn [trimStart]. destruct (isWhiteSpace c); simpl; lia.
Qed.

Lemma trimEnd_length (s : string) :
  (String.length (trimEnd s) <= String.length s)%nat.
Proof.
  induction s as [|c s IH]; [apply Nat.le_refl|].
  cbn [trimEnd]. destruct (trimEnd s) as [|d t].
  - destruct (isWhiteSpace c); simpl; lia.
  - simpl in *. lia.
Qed.

Lemma removeNoise_length (s : string) (skip : nat) :
  (String.length (removeNoise skip s) <= String.length s)%nat.
Proof.
  revert skip. induction s as [|c s IH]; intros skip; [apply Nat.le_refl|].
  cbn [removeNoise]. destruct skip as [|k].
  - destruct (noiseAt (String c s)) as [[|k]|]; simpl;
      try (specialize (IH 0%nat); lia).
    specialize (IH k). lia.
  - specialize (IH k). simpl. lia.
Qed.

(** X12. The query handed to [fetchNews] is never empty and never
    starts or ends with white space; it is the word "technology" or no
    longer than the message. *)
Theorem newsQuery_shape (msg : string) :
  newsQuery msg <> EmptyString
  /\ startsSolid (newsQuery msg) = true
  /\ endsSolid (newsQuery msg) = true
  /\ (newsQuery msg = "technology"
      \/ (String.length (newsQuery msg) <= String.length msg)%nat).
Proof.
  unfold newsQuery. cbv zeta.
  destruct (trim_solid (removeNoise 0 msg)) as [E|[Hs He]].
  - rewrite E. cbn [truthy].
    repeat split; try discriminate. left. reflexivity.
  - destruct (trim (removeNoise 0 msg)) as [|c q] eqn:E; [discriminate Hs|].
    cbn [truthy]. repeat split; try discriminate; try assumption.
    right. rewrite <- E. unfold trim.
    pose proof (trimEnd_length (trimStart (removeNoise 0 msg))).
    pose proof (trimStart_length (removeNoise 0 msg)).
    pose proof (removeNoise_length msg 0). lia.
Qed.

(** ** The city of a weather request *)

Lemma takeWhile_all (q : ascii -> bool) (s : string) :
  allChars q (takeWhile q s) = true.
Proof.
  induction s as [|c s IH]; [reflexivity|].
  cbn [takeWhile]. destruct (q c) eqn:E; [|reflexivity].
  cbn [allChars]. rewrite E, IH. reflexivity.
Qed.

Lemma takeWhile_dropWhile (q : ascii -> bool) (s : string) :
  s = takeWhile q s ++ dropWhile q s.
Proof.
  induction s as [|c s IH]; [reflexivity|].
  cbn [takeWhile dropWhile]. destruct (q c); [|reflexivity].
  cbn [append]. rewrite <- IH. reflexivity.
Qed.

Lemma skipChars_suffix (n : nat) (s : string) :
  exists pre, s = pre ++ skipChars n s.
Proof.
  revert s. induction n as [|n IH]; intros s.
  - exists EmptyString. destruct s; reflexivity.
  - destruct s as [|c s]; [exists EmptyString; reflexivity|].
    destruct (IH s) as [pre E]. exists (String c pre).
    cbn [skipChars append]. rewrite <- E. reflexivity.
Qed.

Lemma searchFrom_some {A : Type} (matchAt : string -> option A) (s : string)
    (r : A) :
  searchFrom matchAt s = Some r ->
  exists pre suf, s = pre ++ suf /\ matchAt suf = Some r.
Proof.
  induction s as [|c s IH]; cbn [searchFrom].
  - destruct (matchAt EmptyString) eqn:E; [|discriminate].
    intros [= <-]. exists EmptyString, EmptyString. split; [reflexivity | exact E].
  - destruct (matchAt (String c s)) eqn:E.
    + intros [= <-]. exists EmptyString, (String c s).
      split; [reflexivity | exact E].
    + intros H. destruct (IH H) as (pre & suf & Es & Hm).
      exists (String c pre), suf. rewrite Es. split; [reflexivity | exact Hm].
Qed.

Lemma cityAfter_captured (kw s c : string) :
  cityAfter kw s = Some c -> capturedFrom s c.
Proof.
  unfold cityAfter. destruct (startsWith (toLowerCase s) kw); [|discriminate].
  cbv zeta. destruct (skipChars_suffix (String.length kw) s) as [pre E].
  set (rest := skipChars (String.length kw) s) in *.
  destruct (takeWhile isWhiteSpace rest) eqn:W; [discriminate|].
  destruct (takeWhile isLetter (dropWhile isWhiteSpace rest)) as [|x w] eqn:L;
    [discriminate|].
  intros [= <-]. split; [discriminate|]. split.
  - rewrite <- L. apply takeWhile_all.
  - exists (pre ++ takeWhile isWhiteSpace rest),
           (dropWhile isLetter (dropWhile isWhiteSpace rest)).
    rewrite <- L, append_assoc, <- takeWhile_dropWhile,
      <- takeWhile_dropWhile.
    exact E.
Qed.

Lemma cityBeforeWeather_captured (s c : string) :
  cityBeforeWeather s = Some c -> capturedFrom s c.
Proof.
  unfold cityBeforeWeather. cbv zeta.
  destruct (2 <=? String.length (takeWhile isLetter s))%nat eqn:Len;
    [|discriminate].
  destruct (takeWhile isWhiteSpace (dropWhile isLetter s)); [discriminate|].
  destruct (startsWith _ "weather"); [|discriminate].
  intros [= <-]. split.
  - intros E. rewrite E in Len. discriminate Len.
  - split; [apply takeWhile_all|].
    exists EmptyString, (dropWhile isLetter s). apply takeWhile_dropWhile.
Qed.

Lemma searchFrom_captured (matchAt : string -> option string) (s c : string) :
  (forall t r, matchAt t = Some r -> capturedFrom t r) ->
  searchFrom matchAt s = Some c -> capturedFrom s c.
Proof.
  intros Hm H. apply searchFrom_some in H.
  destruct H as (pre & suf & E & M).
  destruct (Hm suf c M) as (Hne & Hl & pre' & post & E').
  split; [exact Hne|]. split; [exact Hl|].
  exists (pre ++ pre'), post. rewrite E, E', append_assoc. reflexivity.
Qed.

(** X13. The city handed to [fetchWeather] is never empty and consists
    of letters only; it is a run of letters of the message, or the
    default Delhi when none of the four patterns matches. *)
Theorem weatherCity_letters (msg : string) :
  weatherCity msg <> EmptyString
  /\ allChars isLetter (weatherCity msg) = true
  /\ (weatherCity msg = "Delhi" \/ includes msg (weatherCity msg) = true).
Proof.
  assert (H : weatherCity msg = "Delhi" \/ capturedFrom msg (weatherCity msg)).
  { unfold weatherCity, cityMatch.
    destruct (searchFrom (cityAfter "in") msg) eqn:E1;
      [right; exact (searchFrom_captured _ _ _ (cityAfter_captured "in") E1)|].
    destruct (searchFrom (cityAfter "at") msg) eqn:E2;
      [right; exact (searchFrom_captured _ _ _ (cityAfter_captured "at") E2)|].
    destruct (searchFrom (cityAfter "weather") msg) eqn:E3;
      [right;
       exact (searchFrom_captured _ _ _ (cityAfter_captured "weather") E3)|].
    destruct (searchFrom cityBeforeWeather msg) eqn:E4;
      [right; exact (searchFrom_captured _ _ _ cityBeforeWeather_captured E4)|].
    left. reflexivity. }
  destruct H as [E|(Hne & Hl & pre & post & E)].
  - rewrite E. split; [discriminate|]. split; [reflexivity|]. left. reflexivity.
  - split; [exact Hne|]. split; [exact Hl|]. right.
    apply includes_spec. exists pre, post. exact E.
Qed.

(** * The transcript *)

Lemma truthy_app (a b : string) : truthy a = true -> truthy (a ++ b) = true.
Proof. destruct a; [discriminate | reflexivity]. Qed.

Lemma historyLine_truthy (msg : Message) : truthy (historyLine msg) = true.
Proof.
  unfold historyLine. destruct (String.eqb (role msg) "user"); reflexivity.
Qed.

Lemma historyString_truthy (hist : list Message) :
  truthy (historyString hist) = match hist with [] => false | _ :: _ => true end.
Proof.
  destruct hist as [|m [|m2 rest]]; [reflexivity| |].
  - apply historyLine_truthy.
  - unfold historyString. cbn [map join].
    apply truthy_app. apply historyLine_truthy.
Qed.

Lemma join_app_nonempty (sep : string) (l1 l2 : list string) :
  l1 <> [] -> l2 <> [] ->
  join sep (l1 ++ l2) = join sep l1 ++ sep ++ join sep l2.
Proof.
  intros H1 H2. induction l1 as [|a l1 IH]; [exfalso; apply H1; reflexivity|].
  destruct l1 as [|b l1].
  - destruct l2 as [|c l2]; [exfalso; apply H2; reflexivity|]. reflexivity.
  - change (join sep ((a :: b :: l1) ++ l2))
      with (a ++ sep ++ join sep ((b :: l1) ++ l2)).
    rewrite IH by discriminate.
    change (join sep (a :: b :: l1)) with (a ++ sep ++ join sep (b :: l1)).
    rewrite !append_assoc. reflexivity.
Qed.

(** X14. The text sent to the model always ends with the current turn,
    "User: " followed by the message and the real-time block.  It is
    preceded by the transcript and an empty line exactly when the
    history is not empty, every entry of a role other than "user" being
    labelled "AI"; and the transcript of a longer history is the
    transcript of its first part, a line break, and that of the rest. *)
Theorem buildPrompt_shape (hist : list Message) (msg realTimeData : string) :
  buildPrompt hist msg realTimeData
  = match hist with
    | [] => "User: " ++ msg ++ realTimeData
    | _ :: _ => historyString hist ++ newline ++ newline
                ++ "User: " ++ msg ++ realTimeData
    end
  /\ (forall m, In m hist ->
                (role m = "user" -> historyLine m = "User: " ++ text m)
                /\ (role m <> "user" -> historyLine m = "AI: " ++ text m))
  /\ (forall h1 h2, hist = (h1 ++ h2)%list -> h1 <> [] -> h2 <> [] ->
                    historyString hist
                    = historyString h1 ++ newline ++ historyString h2).
Proof.
  split; [|split].
  - unfold buildPrompt. rewrite historyString_truthy.
    destruct hist; reflexivity.
  - intros m _. unfold historyLine. split.
    + intros E. rewrite E. reflexivity.
    + intros E. apply String.eqb_neq in E. rewrite E. reflexivity.
  - intros h1 h2 -> H1 H2. unfold historyString.
    rewrite map_app. apply join_app_nonempty.
    + destruct h1; [exfalso; apply H1; reflexivity | discriminate].
    + destruct h2; [exfalso; apply H2; reflexivity | discriminate].
Qed.

Lemma buildPrompt_shape_witness :
  historyString [userSays "explain merge sort";
                 mkMessage "assistant" "What is a merge?";
                 userSays "joining two sorted lists"]
  = historyString [userSays "explain merge sort"] ++ newline
    ++ historyString [mkMessage "assistant" "What is a merge?";
                      userSays "joining two sorted lists"].
Proof.
  apply (proj2 (proj2 (buildPrompt_shape
                         [userSays "explain merge sort";
                          mkMessage "assistant" "What is a merge?";
                          userSays "joining two sorted lists"]
                         "so it is linear" EmptyString))
           [userSays "explain merge sort"]
           [mkMessage "assistant" "What is a merge?";
            userSays "joining two sorted lists"]);
    [reflexivity | discriminate | discriminate].
Defined.

(** * The guidance tier once more *)

Lemma numberToString_negative (p : positive) :
  exists d, numberToString (Z.neg p) = "-" ++ d
            /\ allChars isDigit d = true /\ d <> EmptyString.
Proof.
  unfold numberToString, Z.to_int, NilZero.string_of_int.
  exists (NilZero.string_of_uint (Pos.to_uint p)).
  split; [reflexivity|].
  unfold NilZero.string_of_uint.
  destruct (Pos.to_uint p) eqn:E;
    try (split; [exact (uint_digits _) | discriminate]).
  split; [reflexivity | discriminate].
Qed.

(** X15. Every attempt count other than 0, 1 and 2, a negative one
    included, falls into the last branch: the guidance asks for the full
    solution and directs [isHint: false, isSolution: true]. *)
Theorem guidance_other_counts (n : Z) :
  n <> 0%Z -> n <> 1%Z -> n <> 2%Z ->
  selectedTiers (guidance n) = [FullSolution]
  /\ directedFlags (guidance n) = [(false, true)].
Proof.
  intros H0 H1 H2.
  destruct (Z_lt_le_dec n 0) as [Hneg|Hpos].
  - destruct n as [|p|p]; try lia.
    destruct (numberToString_negative p) as (d & E & Hd & Hne).
    unfold guidance. cbn [Z.eqb]. rewrite E.
    unfold template. cbn [join]. rewrite !append_assoc.
    rewrite <- (append_assoc "- This is attempt " "-" _).
    rewrite (selectedTiers_around_digits _ _ _ Hd Hne).
    rewrite (directedFlags_around_digits _ _ _ Hd Hne).
    split; vm_compute; reflexivity.
  - apply guidance_from_three. lia.
Qed.

Lemma guidance_other_counts_witness :
  selectedTiers (guidance (-1)) = [FullSolution]
  /\ directedFlags (guidance (-1)) = [(false, true)].
Proof. apply (guidance_other_counts (-1)); discriminate. Defined.

(** X16. The classifier and the prompt together: a direct solution
    request in learning mode yields a prompt whose guidance asks for the
    full solution, whatever the attempt count was before, and a new
    learning question yields one that asks for the conceptual hint. *)
Theorem request_to_tier (msg : string) (hist : list Message) :
  (forall pc : ConversationContext,
      earlierRulesSkip (lowerTrim msg) hist = true ->
      isFollowUp (lowerTrim msg) && topicTruthy (currentTopic pc) = false ->
      isAskingForSolution (lowerTrim msg) = true ->
      isLearningMode pc = true ->
      isLearningMode (analyzeContext msg hist (Some pc)) = true
      /\ selectedTiers
           (guidance (attemptCount (analyzeContext msg hist (Some pc))))
         = [FullSolution]
      /\ directedFlags
           (guidance (attemptCount (analyzeContext msg hist (Some pc))))
         = [(false, true)])
  /\ (forall prev : option ConversationContext,
         realTimeRule (lowerTrim msg) = false ->
         isNewLearningQuestion (lowerTrim msg) = true ->
         isReturningToPrevious (lowerTrim msg) = false ->
         isLearningMode (analyzeContext msg hist prev) = true
         /\ selectedTiers
              (guidance (attemptCount (analyzeContext msg hist prev)))
            = [ConceptualHint]
         /\ directedFlags
              (guidance (attemptCount (analyzeContext msg hist prev)))
            = [(true, false)]).
Proof.
  split.
  - intros pc Hskip Hfollow Hsol Hlearn.
    rewrite (analyzeContext_later_rules _ _ _ Hskip). cbv zeta.
    rewrite Hfollow, Hsol, Hlearn. cbn [andb isLearningMode attemptCount].
    split; [reflexivity|]. apply guidance_from_three. lia.
  - unfold realTimeRule. intros prev H1 H2 H3.
    unfold analyzeContext. cbv zeta. rewrite H1, H2, H3.
    rewrite andb_false_r. cbn [andb negb isLearningMode attemptCount].
    repeat split; vm_compute; reflexivity.
Qed.

Lemma request_to_tier_witness :
  selectedTiers
    (guidance
       (attemptCount
          (analyzeContext "just tell me" [] (Some (mergeSort (-4))))))
  = [FullSolution].
Proof.
  apply (proj1 (request_to_tier "just tell me" []) (mergeSort (-4)));
    vm_compute; reflexivity.
Defined.

(** * The request gate *)

(** X17. [chat] hands a request to the classifier exactly when the
    method is POST, the body is an object, its [message] is a non-empty
    string and its [conversationHistory] is an array; every other
    request is answered with status 204, 405, 400 or 500, and a bad
    message is reported before a bad history. *)
Theorem chatGate_passes_iff (req : Request) :
  (forall m h c,
      chatGate req = Analyze m h c
      <-> method req = "POST"
          /\ exists fields s items,
               body req = JObject fields
               /\ s <> EmptyString
               /\ m = JString s /\ lookupField fields "message" = m
               /\ h = JArray items
               /\ lookupField fields "conversationHistory" = h
               /\ c = lookupField fields "conversationContext")
  /\ (forall status error,
         chatGate req = Respond status error ->
         status = 204%nat \/ status = 405%nat \/ status = 400%nat
         \/ status = 500%nat)
  /\ (forall fields,
         method req = "POST" -> body req = JObject fields ->
         jsTruthy (lookupField fields "message")
         && isString (lookupField fields "message") = false ->
         chatGate req = Respond 400 "Invalid message").
Proof.
  unfold chatGate. split; [|split].
  - intros m h c. split.
    + destruct (String.eqb (method req) "OPTIONS"); [discriminate|].
      destruct (String.eqb (method req) "POST") eqn:P; [|discriminate].
      apply String.eqb_eq in P. cbn [negb].
      destruct (body req) as [| | | | |items|fields]; try discriminate.
      cbn [property].
      destruct (lookupField fields "message") as [| | | |s| |] eqn:M;
        try discriminate; try (destruct b; discriminate);
        try (cbn [jsTruthy isString]; destruct (negb (n =? 0)%Z); discriminate).
      destruct s as [|x s]; [discriminate|]. cbn [jsTruthy truthy isString negb orb].
      destruct (lookupField fields "conversationHistory") as [| | | | |hs|] eqn:H;
        try discriminate.
      cbn [isArray negb]. intros [= <- <- <-].
      split; [exact P|]. exists fields, (String x s), hs.
      repeat split; try assumption; try reflexivity. discriminate.
    + intros (P & fields & s & items & B & Hs & -> & M & -> & H & ->).
      rewrite P, B. cbn [String.eqb]. cbn [property]. rewrite M, H.
      destruct s as [|x s]; [exfalso; apply Hs; reflexivity|]. reflexivity.
  - intros status error.
    destruct (String.eqb (method req) "OPTIONS"); [intros [= <- _]; auto|].
    destruct (negb (String.eqb (method req) "POST")); [intros [= <- _]; auto|].
    destruct (property (body req) "message") as [message|];
      [|intros [= <- _]; auto 6].
    destruct (property (body req) "conversationHistory") as [history|];
      [|intros [= <- _]; auto 6].
    destruct (property (body req) "conversationContext") as [context|];
      [|intros [= <- _]; auto 6].
    destruct (negb (jsTruthy message) || negb (isString message));
      [intros [= <- _]; auto 6|].
    destruct (negb (isArray history)); [intros [= <- _]; auto 6 | discriminate].
  - intros fields P B Hm. rewrite P, B. cbn [String.eqb]. cbn [property].
    rewrite <- negb_andb, Hm. reflexivity.
Qed.

Lemma chatGate_passes_iff_witness :
  chatGate (mkRequest "POST"
              (JObject [("message", JString EmptyString);
                        ("conversationHistory", JNull)]))
  = Respond 400 "Invalid message".
Proof.
  apply (proj2 (proj2 (chatGate_passes_iff
                         (mkRequest "POST"
                            (JObject [("message", JString EmptyString);
                                      ("conversationHistory", JNull)]))))
           [("message", JString EmptyString); ("conversationHistory", JNull)]);
    reflexivity.
Defined.

(** * The hint progression *)

Lemma replay_attempts (turns : list (string * list Message))
    (pc : ConversationContext) :
  forallb attemptTurn turns = true ->
  isLearningMode pc = true ->
  topicTruthy (currentTopic pc) = true ->
  replay turns pc
  = match turns with
    | [] => pc
    | _ :: _ => mkContext (currentTopic pc)
                  (attemptCount pc + Z.of_nat (List.length turns)) true
    end.
Proof.
  revert pc. induction turns as [|[msg hist] turns IH]; intros pc Hall Hl Ht;
    [reflexivity|].
  cbn [forallb] in Hall. apply andb_true_iff in Hall.
  destruct Hall as [Hturn Hall].
  unfold attemptTurn in Hturn. cbn [fst snd] in Hturn.
  apply andb_true_iff in Hturn. destruct Hturn as [Hturn Hlong].
  apply andb_true_iff in Hturn. destruct Hturn as [Hturn Hsol].
  apply andb_true_iff in Hturn. destruct Hturn as [Hskip Hfol].
  apply negb_true_iff in Hsol. apply negb_true_iff in Hfol.
  assert (Step : analyzeContext msg hist (Some pc)
                 = mkContext (currentTopic pc) (attemptCount pc + 1) true).
  { rewrite (analyzeContext_later_rules _ _ _ Hskip). cbv zeta.
    rewrite Hfol, Hsol, Hl, Ht. cbn [andb negb].
    rewrite andb_true_r.
    destruct (isGenuineAttempt (lowerTrim msg)); [reflexivity|].
    cbn [orb] in Hlong. rewrite Hlong. reflexivity. }
  unfold replay. cbn [fold_left fst snd]. rewrite Step.
  fold (replay turns (mkContext (currentTopic pc) (attemptCount pc + 1) true)).
  rewrite IH; try assumption; try reflexivity.
  destruct turns as [|t turns]; cbn [currentTopic attemptCount];
    f_equal; cbn [List.length]; lia.
Qed.

(** X18. In learning mode with a topic, a run of turns that each count
    as an attempt keeps the topic and raises the attempt count by the
    number of turns; so three or more attempts after a new question
    (count 0) bring the prompt to the full solution. *)
Theorem attempts_unlock_solution (turns : list (string * list Message))
    (pc : ConversationContext) :
  forallb attemptTurn turns = true ->
  isLearningMode pc = true ->
  topicTruthy (currentTopic pc) = true ->
  currentTopic (replay turns pc) = currentTopic pc
  /\ isLearningMode (replay turns pc) = true
  /\ attemptCount (replay turns pc)
     = (attemptCount pc + Z.of_nat (List.length turns))%Z
  /\ (attemptCount pc = 0%Z -> (3 <= List.length turns)%nat ->
      selectedTiers (guidance (attemptCount (replay turns pc)))
      = [FullSolution]).
Proof.
  intros Hall Hl Ht. rewrite (replay_attempts turns pc Hall Hl Ht).
  destruct turns as [|t turns].
  - cbn [List.length]. repeat split; try assumption; try lia.
  - cbn [currentTopic isLearningMode attemptCount].
    repeat split. intros E H. apply guidance_from_three. lia.
Qed.

Lemma attempts_unlock_solution_witness :
  selectedTiers
    (guidance
       (attemptCount
          (replay [("we split the array in halves", []);
                   ("I think we then merge them", []);
                   ("maybe with two pointers", [])]
                  (mergeSort 0))))
  = [FullSolution].
Proof.
  apply (attempts_unlock_solution
           [("we split the array in halves", []);
            ("I think we then merge them", []);
            ("maybe with two pointers", [])] (mergeSort 0));
    (vm_compute; reflexivity).
Defined.

(** * The whole instruction and the quoted topic *)














(** *** Topics of a session have no upper-case letter *)










